(** * The AI code generator: prompt building, fenced-block extraction,
      artifact writing and the three button callbacks of [app.py]

    A shallow embedding of [app.py].  Python [str] values are lists of Unicode
    code points; exceptions are values of a result type; the temporary
    directory, the clock and the log of completion requests are threaded
    through the callbacks as an explicit world. *)

From Stdlib Require Import String Ascii NArith ZArith Lia.
From stdpp Require Import base option list gmap.

Local Open Scope N_scope.

(** ** Python strings *)

(** A [str] is a sequence of code points. *)
Abbreviation pystr := (list N).

(** A literal of the source, all of them ASCII. *)
Definition str (s : string) : pystr :=
  List.map N_of_ascii (list_ascii_of_string s).

Definition nl : pystr := [10].
Definition fence : pystr := [96; 96; 96].

(** [c.isspace()]: the code points CPython lists as whitespace. *)
Definition isspace (c : N) : bool :=
  ((9 <=? c) && (c <=? 13)) || ((28 <=? c) && (c <=? 32))
  || (c =? 133) || (c =? 160) || (c =? 5760)
  || ((8192 <=? c) && (c <=? 8202))
  || (c =? 8232) || (c =? 8233) || (c =? 8239) || (c =? 8287) || (c =? 12288).

Fixpoint lstrip (s : pystr) : pystr :=
  match s with
  | c :: s' => if isspace c then lstrip s' else s
  | [] => []
  end.

Definition rstrip (s : pystr) : pystr := rev (lstrip (rev s)).

(** [s.strip()] *)
Definition strip (s : pystr) : pystr := rstrip (lstrip s).

(** [s.startswith(p)] *)
Fixpoint startswith (s p : pystr) : bool :=
  match p, s with
  | [], _ => true
  | c :: p', d :: s' => (c =? d) && startswith s' p'
  | _ :: _, [] => false
  end.

(** [s.find(sub)]: the lowest index where [sub] occurs, [None] for Python's -1. *)
Fixpoint find (s sub : pystr) : option nat :=
  if startswith s sub then Some 0%nat
  else match s with
       | [] => None
       | _ :: s' => S <$> find s' sub
       end.

(** [sub in s] *)
Definition py_in (sub s : pystr) : bool :=
  match find s sub with Some _ => true | None => false end.

(** ** Exceptions *)

Inductive exn : Type :=
  | KeyError (key : pystr)
  | IndexError
  | ValueError
  | UnicodeEncodeError
  | OSError (errno : N)
  | RemoteCallFailure (code : N).

Inductive result (A : Type) : Type :=
  | Ok (a : A)
  | Raise (e : exn).
Arguments Ok {A} a.
Arguments Raise {A} e.

Definition rbind {A B} (r : result A) (k : A -> result B) : result B :=
  match r with
  | Ok a => k a
  | Raise e => Raise e
  end.

(** [try: body  except Exception: handler] *)
Definition try_except {A} (body : result A) (handler : result A) : result A :=
  match body with
  | Ok a => Ok a
  | Raise _ => handler
  end.

(** [l[i]] on a Python list *)
Definition getitem {A} (l : list A) (i : nat) : result A :=
  match l !! i with
  | Some a => Ok a
  | None => Raise IndexError
  end.

(** The pieces of [s.split(sep, maxsplit)] once [sep] is known to be non-empty. *)
Fixpoint split_pieces (maxsplit : nat) (s sep : pystr) : list pystr :=
  match maxsplit with
  | O => [s]
  | S n =>
      match find s sep with
      | None => [s]
      | Some i => take i s :: split_pieces n (drop (i + length sep) s) sep
      end
  end.

(** [s.split(sep, maxsplit)]; an empty separator is a [ValueError]. *)
Definition split (s sep : pystr) (maxsplit : nat) : result (list pystr) :=
  match sep with
  | [] => Raise ValueError
  | _ => Ok (split_pieces maxsplit s sep)
  end.

(** [s.rsplit(sep, maxsplit)] is [split] read from the right. *)
Definition rsplit (s sep : pystr) (maxsplit : nat) : result (list pystr) :=
  match sep with
  | [] => Raise ValueError
  | _ => Ok (rev (List.map (@rev N) (split_pieces maxsplit (rev s) (rev sep))))
  end.

(** ** Occurrences of a substring *)

(** [sub] occurs in [s] at offset [i]. *)
Definition occurs_at (sub s : pystr) (i : nat) : Prop :=
  exists a b, s = a ++ sub ++ b /\ length a = i.

Definition occurs (sub s : pystr) : Prop := exists i, occurs_at sub s i.

(** The occurrence at [i] is the leftmost one. *)
Definition first_occurrence (sub s : pystr) (i : nat) : Prop :=
  occurs_at sub s i /\ forall j, (j < i)%nat -> ~ occurs_at sub s j.

(** The occurrence at [i] is the rightmost one. *)
Definition last_occurrence (sub s : pystr) (i : nat) : Prop :=
  occurs_at sub s i /\ forall j, (i < j)%nat -> ~ occurs_at sub s j.

(** ** The fenced-block extractor *)

(** [resp.choices[0].message.content or ""]: a missing content reads as the
    empty string. *)
Definition message_content (content : option pystr) : pystr :=
  match content with
  | Some s => s
  | None => []
  end.

(** The two statements of each [try] body of [llm_fenced_block]:
    [snippet = content.split(mark, 1)[1]; snippet = snippet.split("```", 1)[0];
    return snippet.strip()]. *)
Definition snippet_after (content mark : pystr) : result pystr :=
  rbind (rbind (split content mark 1) (fun l => getitem l 1)) (fun snippet =>
  rbind (rbind (split snippet fence 1) (fun l => getitem l 0)) (fun snippet =>
  Ok (strip snippet))).

(** [llm_fenced_block], from the response content on (lines 143 to 159). *)
Definition extract_fenced_block (content lang_hint : pystr) : result pystr :=
  let fence_tag := fence ++ lang_hint in
  if py_in fence_tag content then
    try_except (snippet_after content fence_tag) (Ok (strip content))
  else if py_in fence content then
    try_except (snippet_after content fence) (Ok (strip content))
  else Ok (strip content).

(** The extractor as the specification words it. *)

(** The text of [t] before its next fence marker; all of [t] when no marker
    follows. *)
Inductive before_next_fence (t : pystr) : pystr -> Prop :=
  | bnf_closed i : first_occurrence fence t i -> before_next_fence t (take i t)
  | bnf_open : ~ occurs fence t -> before_next_fence t t.

Inductive extract_spec (rawText tag : pystr) : pystr -> Prop :=
  | tier_exact i mid :
      first_occurrence (fence ++ tag) rawText i ->
      before_next_fence (drop (i + length (fence ++ tag)) rawText) mid ->
      extract_spec rawText tag (strip mid)
  | tier_any_fence i mid :
      ~ occurs (fence ++ tag) rawText ->
      first_occurrence fence rawText i ->
      before_next_fence (drop (i + length fence) rawText) mid ->
      extract_spec rawText tag (strip mid)
  | tier_raw :
      ~ occurs fence rawText ->
      extract_spec rawText tag (strip rawText).

(** The first piece of a split at most once, as a function. *)
Definition up_to_fence (t : pystr) : pystr :=
  match find t fence with
  | Some i => take i t
  | None => t
  end.

(** [wrap_as_markdown_code] *)
Definition wrap_as_markdown_code (snippet fence_lang : pystr) : pystr :=
  fence ++ fence_lang ++ nl ++ strip snippet ++ nl ++ fence.

(** ** Reading the code back out of the rendered view *)

(** [code.split("\n", 1)[1]]: the view without its first line. *)
Definition drop_first_line (code : pystr) : result pystr :=
  rbind (split code nl 1) (fun l => getitem l 1).

(** [code.rsplit("```", 1)[0]]: the text before the last fence marker. *)
Definition drop_closing_fence (code : pystr) : result pystr :=
  rbind (rsplit code fence 1) (fun l => getitem l 0).

(** The block shared by [on_generate_tests] (lines 197 to 203) and
    [on_generate_docs] (lines 216 to 222).  The two assignments of the [try]
    body take effect one after the other, and [except Exception: pass] keeps
    whatever [code] holds when the exception is raised. *)
Definition viewer_code (current_code_md : pystr) : pystr :=
  let code := strip current_code_md in
  if startswith code fence then
    match drop_first_line code with
    | Raise _ => code
    | Ok code1 =>
        match drop_closing_fence code1 with
        | Raise _ => code1
        | Ok code2 => strip code2
        end
    end
  else code.

(** ** Language profiles *)

Record LanguageProfile : Type := {
  fence_lang : pystr;
  file_ext : pystr;
  test_framework : pystr;
  test_hint : pystr;
  run_hint : pystr;
  doc_hint : pystr;
  example_filename : pystr;
  example_test_filename : pystr;
  readme_name : pystr;
}.

Definition python_profile : LanguageProfile := {|
  fence_lang := str "python";
  file_ext := str "py";
  test_framework := str "pytest";
  test_hint := str "Use pytest. Put tests in a single test file with clear, runnable test functions.";
  run_hint := str "Run the program with: python main.py" ++ nl ++ str "Run tests with: pytest -q";
  doc_hint := str "Include setup, run instructions, and examples for CLI usage if relevant.";
  example_filename := str "main.py";
  example_test_filename := str "test_main.py";
  readme_name := str "README.md";
|}.

Definition java_profile : LanguageProfile := {|
  fence_lang := str "java";
  file_ext := str "java";
  test_framework := str "JUnit 5";
  test_hint := str "Use JUnit 5. Provide a single test class with multiple test methods.";
  run_hint := str "If using Maven: mvn -q test" ++ nl
              ++ str "Compile/run manually with javac/java as applicable.";
  doc_hint := str "Explain how to compile and run via Maven or javac. Include classpath notes.";
  example_filename := str "TinyUrl.java";
  example_test_filename := str "TinyUrlTest.java";
  readme_name := str "README.md";
|}.

Definition javascript_profile : LanguageProfile := {|
  fence_lang := str "javascript";
  file_ext := str "js";
  test_framework := str "vitest";
  test_hint := str "Use vitest. Export functions for testability and include a few focused tests.";
  run_hint := str "Run with: node main.js" ++ nl ++ str "Run tests with: npx vitest run";
  doc_hint := str "Document Node version, install instructions, and test commands.";
  example_filename := str "main.js";
  example_test_filename := str "main.test.js";
  readme_name := str "README.md";
|}.

Definition LANG_PROFILES : gmap pystr LanguageProfile :=
  <[str "python" := python_profile]>
  (<[str "java" := java_profile]>
  (<[str "javascript" := javascript_profile]> ∅)).

(** [d[key]] on a dict *)
Definition dict_getitem {V} (d : gmap pystr V) (key : pystr) : result V :=
  match d !! key with
  | Some v => Ok v
  | None => Raise (KeyError key)
  end.

(** [key in d] *)
Definition dict_contains {V} (d : gmap pystr V) (key : pystr) : bool :=
  match d !! key with
  | Some _ => true
  | None => false
  end.

(** ** [textwrap.dedent] *)

(** [text.split("\n")] *)
Fixpoint splitlines (s : pystr) : list pystr :=
  match s with
  | [] => [[]]
  | c :: s' =>
      if c =? 10 then [] :: splitlines s'
      else match splitlines s' with
           | l :: ls => (c :: l) :: ls
           | [] => [[c]]
           end
  end.

(** ["\n".join(ls)] *)
Fixpoint join_lines (ls : list pystr) : pystr :=
  match ls with
  | [] => []
  | [l] => l
  | l :: ls' => l ++ nl ++ join_lines ls'
  end.

(** A space or a tab, the two characters [dedent] counts as indentation. *)
Definition is_indent_char (c : N) : bool := (c =? 32) || (c =? 9).

(** [_whitespace_only_re.sub('', text)], line by line: a line of spaces and
    tabs only becomes empty. *)
Definition blank_line (l : pystr) : pystr :=
  if forallb is_indent_char l then [] else l.

(** The leading run of spaces and tabs of a line. *)
Fixpoint indent_of (l : pystr) : pystr :=
  match l with
  | c :: l' => if is_indent_char c then c :: indent_of l' else []
  | [] => []
  end.

(** The last branch of the margin loop: cut [margin] at the first position
    where it differs from [indent]. *)
Fixpoint cut_at_mismatch (margin indent : pystr) : pystr :=
  match margin, indent with
  | x :: m', y :: i' => if x =? y then x :: cut_at_mismatch m' i' else []
  | _, _ => margin
  end.

(** One turn of [for indent in indents]. *)
Definition margin_step (margin : option pystr) (indent : pystr) : option pystr :=
  match margin with
  | None => Some indent
  | Some m =>
      if startswith indent m then Some m
      else if startswith m indent then Some indent
      else Some (cut_at_mismatch m indent)
  end.

(** [re.sub(r'(?m)^' + margin, '', text)] on one line. *)
Definition remove_margin (margin l : pystr) : pystr :=
  if startswith l margin then drop (length margin) l else l.

Definition is_empty (s : pystr) : bool :=
  match s with
  | [] => true
  | _ => false
  end.

(** [textwrap.dedent(text)]: blank the lines of spaces and tabs, find the
    common margin of the other non-empty lines, remove it from each line. *)
Definition dedent (text : pystr) : pystr :=
  let ls := List.map blank_line (splitlines text) in
  let indents := List.map indent_of (List.filter (fun l => negb (is_empty l)) ls) in
  match foldl margin_step None indents with
  | Some (c :: m) => join_lines (List.map (remove_margin (c :: m)) ls)
  | _ => join_lines ls
  end.

(** No line of the text consists of spaces and tabs only (empty lines are
    fine): [dedent] blanks no line of it. *)
Definition solid_lines (text : pystr) : Prop :=
  forall l, l ∈ splitlines text -> blank_line l = l.

(** Some line after the first is not empty and starts at the left edge. *)
Definition has_flush_line (text : pystr) : Prop :=
  exists l, l ∈ tail (splitlines text) /\ l <> [] /\ indent_of l = [].

(** ** Prompt builders *)

(** The text [code_prompt] returns for the profile [p] of the language. *)
Definition code_prompt_text (p : LanguageProfile) (requirements language : pystr) : pystr :=
  dedent (
    nl ++
    str "    You are a senior " ++ language
      ++ str " engineer. Generate a single, self-contained source file." ++ nl ++
    nl ++
    str "    Requirements:" ++ nl ++
    str "    " ++ strip requirements ++ nl ++
    nl ++
    str "    Constraints:" ++ nl ++
    str "    - Use idiomatic, minimal, production-quality " ++ language ++ str "." ++ nl ++
    str "    - Include clear function/class names." ++ nl ++
    str "    - Avoid placeholders and pseudo-code." ++ nl ++
    str "    - If configuration is needed, include sane defaults in code." ++ nl ++
    str "    - Provide only the code for one file. Do NOT include explanations." ++ nl ++
    str "    - Prefer a filename like: " ++ example_filename p ++ nl ++
    nl ++
    str "    Output strictly as a fenced code block with the correct language." ++ nl ++
    str "    ").

Definition code_prompt (requirements language : pystr) : result pystr :=
  rbind (dict_getitem LANG_PROFILES language) (fun p =>
  Ok (code_prompt_text p requirements language)).

(** The text [tests_prompt] returns for the profile [p] of the language. *)
Definition tests_prompt_text (p : LanguageProfile) (code language : pystr) : pystr :=
  dedent (
    nl ++
    str "    You are a senior " ++ language
      ++ str " engineer. Write unit tests for the code below." ++ nl ++
    nl ++
    str "    Original code:" ++ nl ++
    str "    ```" ++ nl ++
    str "    " ++ code ++ nl ++
    str "    ```" ++ nl ++
    nl ++
    str "    Testing requirements:" ++ nl ++
    str "    - Framework: " ++ test_framework p ++ str "." ++ nl ++
    str "    - " ++ test_hint p ++ nl ++
    str "    - Cover happy paths and at least one edge case." ++ nl ++
    str "    - Provide only ONE test file named like " ++ example_test_filename p
      ++ str "." ++ nl ++
    str "    - Output strictly as a fenced code block with the correct language or 'text' if needed."
      ++ nl ++
    str "    ").

Definition tests_prompt (code language : pystr) : result pystr :=
  rbind (dict_getitem LANG_PROFILES language) (fun p =>
  Ok (tests_prompt_text p code language)).

(** The text [docs_prompt] returns for the profile [p] of the language. *)
Definition docs_prompt_text (p : LanguageProfile) (code language : pystr) : pystr :=
  dedent (
    nl ++
    str "    You are a technical writer. Produce a concise README.md for this project." ++ nl ++
    nl ++
    str "    Code to document:" ++ nl ++
    str "    ```" ++ nl ++
    str "    " ++ code ++ nl ++
    str "    ```" ++ nl ++
    nl ++
    str "    Include:" ++ nl ++
    str "    - Project overview and core features" ++ nl ++
    str "    - Quick start" ++ nl ++
    str "    - How to run the program" ++ nl ++
    str "    - How to run tests (" ++ test_framework p ++ str ")" ++ nl ++
    str "    - Notes / limitations" ++ nl ++
    str "    - Example usage" ++ nl ++
    nl ++
    str "    Hints:" ++ nl ++
    str "    - " ++ run_hint p ++ nl ++
    str "    - " ++ doc_hint p ++ nl ++
    nl ++
    str "    Output strictly as a fenced code block marked 'markdown' with a valid README.md."
      ++ nl ++
    str "    ").

Definition docs_prompt (code language : pystr) : result pystr :=
  rbind (dict_getitem LANG_PROFILES language) (fun p =>
  Ok (docs_prompt_text p code language)).

(** ** File names and the clock *)

(** A [datetime]: the fields [strftime] reads. *)
Record datetime : Type := {
  year : N;
  month : N;
  day : N;
  hour : N;
  minute : N;
  second : N;
}.


Fixpoint decimal_digits (fuel : nat) (n : N) : pystr :=
  match fuel with
  | O => []
  | S f => if n <? 10 then [48 + n]
           else decimal_digits f (n / 10) ++ [48 + n mod 10]
  end.

(** [n] in decimal. *)
Definition decimal (n : N) : pystr :=
  decimal_digits (S (N.to_nat (N.log2 n))) n.

(** [n] in decimal, zero-padded on the left to [width] characters. *)
Definition zero_padded (width : nat) (n : N) : pystr :=
  let d := decimal n in
  replicate (width - length d) 48 ++ d.

(** [d.strftime("%Y%m%d-%H%M%S")].  The C library formats the fields: [%m],
    [%d], [%H], [%M] and [%S] are two digits, zero-padded; [%Y] is the year
    in decimal without padding, four digits from the year 1000 on. *)
Definition strftime (d : datetime) : pystr :=
  decimal (year d) ++ zero_padded 2 (month d) ++ zero_padded 2 (day d)
  ++ str "-"
  ++ zero_padded 2 (hour d) ++ zero_padded 2 (minute d) ++ zero_padded 2 (second d).

(** [s.rfind(sub)]: the highest index where [sub] occurs. *)
Definition rfind (s sub : pystr) : option nat :=
  match find (rev s) (rev sub) with
  | Some j => Some (length s - length sub - j)%nat
  | None => None
  end.

(** An index as Python reports it, -1 when there is none. *)
Definition index_or_minus_one (i : option nat) : Z :=
  match i with
  | Some i => Z.of_nat i
  | None => (-1)%Z
  end.

(** The [while] loop of [_splitext]: is some character of
    [p[filenameIndex:dotIndex]] not a dot? *)
Fixpoint name_before_dot (p : pystr) (filenameIndex count : nat) : bool :=
  match count with
  | O => false
  | S count' =>
      match p !! filenameIndex with
      | Some c => if c =? 46 then name_before_dot p (S filenameIndex) count' else true
      | None => true
      end
  end.

(** [os.path.splitext(p)] on POSIX: the extension starts at the last dot of
    the last path component, leading dots of that component apart. *)
Definition splitext (p : pystr) : pystr * pystr :=
  let sepIndex := index_or_minus_one (rfind p (str "/")) in
  let dotIndex := index_or_minus_one (rfind p (str ".")) in
  if (sepIndex <? dotIndex)%Z
     && name_before_dot p (Z.to_nat (sepIndex + 1))
          (Z.to_nat (dotIndex - (sepIndex + 1)))
  then (take (Z.to_nat dotIndex) p, drop (Z.to_nat dotIndex) p)
  else (p, []).

(** [s.endswith(p)] *)
Definition endswith (s p : pystr) : bool := startswith (rev s) (rev p).

(** [os.path.join(a, b)] on POSIX *)
Definition path_join (a b : pystr) : pystr :=
  if startswith b (str "/") then b
  else if is_empty a || endswith a (str "/") then a ++ b
  else a ++ str "/" ++ b.


(** ** UTF-8 *)

(** The bytes of one code point; surrogates and values past U+10FFFF have
    none. *)
Definition utf8_encode_char (c : N) : option (list N) :=
  if c <? 128 then Some [c]
  else if c <? 2048 then Some [192 + c / 64; 128 + c mod 64]
  else if (55296 <=? c) && (c <=? 57343) then None
  else if c <? 65536 then
    Some [224 + c / 4096; 128 + (c / 64) mod 64; 128 + c mod 64]
  else if c <? 1114112 then
    Some [240 + c / 262144; 128 + (c / 4096) mod 64; 128 + (c / 64) mod 64;
          128 + c mod 64]
  else None.

(** [text.encode("utf-8")], [None] for a [UnicodeEncodeError]. *)
Fixpoint utf8_encode (text : pystr) : option (list N) :=
  match text with
  | [] => Some []
  | c :: text' =>
      match utf8_encode_char c, utf8_encode text' with
      | Some b, Some bs => Some (b ++ bs)
      | _, _ => None
      end
  end.


(** ** The world of a callback *)

(** The files of the temporary directory (path to bytes), the clock, the
    directory [tempfile.gettempdir()] returns, and the prompts sent to the
    completion service so far. *)
Record world : Type := {
  fs : gmap pystr (list N);
  clock : datetime;
  tempdir : pystr;
  requests : list pystr;
}.

Definition set_file (path : pystr) (bytes : list N) (w : world) : world :=
  {| fs := <[path := bytes]> (fs w); clock := clock w; tempdir := tempdir w;
     requests := requests w |}.

Definition log_request (prompt : pystr) (w : world) : world :=
  {| fs := fs w; clock := clock w; tempdir := tempdir w;
     requests := requests w ++ [prompt] |}.

(** A computation that may raise and may change the world. *)
Definition M (A : Type) : Type := world -> result A * world.

#[global] Instance M_ret : MRet M := fun A a w => (Ok a, w).

#[global] Instance M_bind : MBind M := fun A B k m w =>
  match m w with
  | (Ok a, w') => k a w'
  | (Raise e, w') => (Raise e, w')
  end.

Definition lift {A} (r : result A) : M A := fun w => (r, w).

(** The name [write_temp_file] gives the file: the timestamp goes between
    base and extension, or, without an extension, after the name and before
    [.txt]. *)
Definition safe_name (filename ts : pystr) : pystr :=
  let '(base, ext) := splitext filename in
  if is_empty ext then filename ++ str "-" ++ ts ++ str ".txt"
  else base ++ str "-" ++ ts ++ ext.

(** [write_temp_file].  [os_open] is the operating system's answer to
    opening a path for writing: [None] when the file opens, else the exception
    [open] raises (a missing directory, a name it refuses, no permission).
    Opening creates or truncates the file; the write encodes the text, and
    raises on text UTF-8 cannot encode. *)
Definition write_temp_file (os_open : pystr -> option exn) (text filename : pystr)
    : M pystr := fun w =>
  let ts := strftime (clock w) in
  let path := path_join (tempdir w) (safe_name filename ts) in
  match os_open path with
  | Some e => (Raise e, w)
  | None =>
      match utf8_encode text with
      | Some bytes => (Ok path, set_file path bytes w)
      | None => (Raise UnicodeEncodeError, set_file path [] w)
      end
  end.

(** ** What a callback returns *)

(** [gr.update(...)]: the keys given, each replacing that property of the
    component it is returned for. *)
Record update : Type := {
  upd_value : option pystr;
  upd_visible : option bool;
}.

(** A value returned for one output component. *)
Inductive output : Type :=
  | OutUpdate (u : update)
  | OutStr (v : pystr)
  | OutNone.

Definition outputs : Type := output * output * output.

Definition missing_requirements : pystr :=
  str "Please enter requirements and choose a language.".
Definition unsupported_language (language : pystr) : pystr :=
  str "Unsupported language: " ++ language.
Definition missing_code : pystr :=
  str "Generate code first (or paste code) and choose a language.".

(** The triple of an error: the view set to the empty string, no file, the
    alert shown with [message]. *)
Definition error_outputs (message : pystr) : outputs :=
  (OutUpdate {| upd_value := Some []; upd_visible := None |},
   OutNone,
   OutUpdate {| upd_value := Some message; upd_visible := Some true |}).

Definition ready_outputs (md_view file_path : pystr) : outputs :=
  (OutStr md_view, OutStr file_path,
   OutUpdate {| upd_value := Some []; upd_visible := Some false |}).

Section Callbacks.

(** The completion service: for a prompt, the content of the first choice
    ([None] when the message has no content), or the exception the call
    raises. *)
Variable chat_completion : pystr -> result (option pystr).

(** The operating system's answer to opening a path for writing. *)
Variable os_open : pystr -> option exn.

Definition llm_fenced_block (prompt lang_hint : pystr) : M pystr := fun w =>
  let w' := log_request prompt w in
  match chat_completion prompt with
  | Raise e => (Raise e, w')
  | Ok content => (extract_fenced_block (message_content content) lang_hint, w')
  end.

Definition on_generate_code (requirements language : pystr) : M outputs :=
  if is_empty requirements || is_empty language then
    mret (error_outputs missing_requirements)
  else if negb (dict_contains LANG_PROFILES language) then
    mret (error_outputs (unsupported_language language))
  else
    prompt ← lift (code_prompt requirements language);
    p ← lift (dict_getitem LANG_PROFILES language);
    raw_code ← llm_fenced_block prompt (fence_lang p);
    p ← lift (dict_getitem LANG_PROFILES language);
    let md_view := wrap_as_markdown_code raw_code (fence_lang p) in
    p ← lift (dict_getitem LANG_PROFILES language);
    let filename := example_filename p in
    file_path ← write_temp_file os_open raw_code filename;
    mret (ready_outputs md_view file_path).

Definition on_generate_tests (current_code_md language : pystr) : M outputs :=
  if is_empty current_code_md || is_empty language then
    mret (error_outputs missing_code)
  else
    let code := viewer_code current_code_md in
    prompt ← lift (tests_prompt code language);
    p ← lift (dict_getitem LANG_PROFILES language);
    raw_tests ← llm_fenced_block prompt (fence_lang p);
    p ← lift (dict_getitem LANG_PROFILES language);
    let md_view := wrap_as_markdown_code raw_tests (fence_lang p) in
    p ← lift (dict_getitem LANG_PROFILES language);
    let filename := example_test_filename p in
    file_path ← write_temp_file os_open raw_tests filename;
    mret (ready_outputs md_view file_path).

Definition on_generate_docs (current_code_md language : pystr) : M outputs :=
  if is_empty current_code_md || is_empty language then
    mret (error_outputs missing_code)
  else
    let code := viewer_code current_code_md in
    prompt ← lift (docs_prompt code language);
    raw_md ← llm_fenced_block prompt (str "markdown");
    let md_view := wrap_as_markdown_code raw_md (str "markdown") in
    p ← lift (dict_getitem LANG_PROFILES language);
    let filename := readme_name p in
    file_path ← write_temp_file os_open raw_md filename;
    mret (ready_outputs md_view file_path).

(** ** The session: components and button wiring *)

(** A component of the page: its value and whether it shows. *)
Record component : Type := {
  value : option pystr;
  visible : bool;
}.

(** A returned value replaces the component's value; an update replaces
    the properties it names and leaves the others. *)
Definition apply_output (o : output) (c : component) : component :=
  match o with
  | OutStr v => {| value := Some v; visible := visible c |}
  | OutNone => {| value := None; visible := visible c |}
  | OutUpdate u =>
      {| value := match upd_value u with Some v => Some v | None => value c end;
         visible := match upd_visible u with Some b => b | None => visible c end |}
  end.

Record session : Type := {
  code_view : component;
  dl_code : component;
  tests_view : component;
  dl_tests : component;
  docs_view : component;
  dl_docs : component;
  alert : component;
}.

(** The text a callback receives for a component. *)
Definition input_text (c : component) : pystr := default [] (value c).

(** [btn_gen_code.click]: outputs [code_view, dl_code, alert]. *)
Definition click_gen_code (requirements language : pystr) (s : session) : M session :=
  '(view, file, banner) ← on_generate_code requirements language;
  mret {| code_view := apply_output view (code_view s);
          dl_code := apply_output file (dl_code s);
          tests_view := tests_view s; dl_tests := dl_tests s;
          docs_view := docs_view s; dl_docs := dl_docs s;
          alert := apply_output banner (alert s) |}.

(** [btn_gen_tests.click]: inputs [code_view, language], outputs
    [tests_view, dl_tests, alert]. *)
Definition click_gen_tests (language : pystr) (s : session) : M session :=
  '(view, file, banner) ← on_generate_tests (input_text (code_view s)) language;
  mret {| code_view := code_view s; dl_code := dl_code s;
          tests_view := apply_output view (tests_view s);
          dl_tests := apply_output file (dl_tests s);
          docs_view := docs_view s; dl_docs := dl_docs s;
          alert := apply_output banner (alert s) |}.

(** [btn_gen_docs.click]: inputs [code_view, language], outputs
    [docs_view, dl_docs, alert]. *)
Definition click_gen_docs (language : pystr) (s : session) : M session :=
  '(view, file, banner) ← on_generate_docs (input_text (code_view s)) language;
  mret {| code_view := code_view s; dl_code := dl_code s;
          tests_view := tests_view s; dl_tests := dl_tests s;
          docs_view := apply_output view (docs_view s);
          dl_docs := apply_output file (dl_docs s);
          alert := apply_output banner (alert s) |}.

End Callbacks.

(** A trimmed string: no whitespace at either end. *)
Definition trimmed (s : pystr) : Prop := lstrip s = s /\ lstrip (rev s) = rev s.



(** ** Sample inputs *)

(** An operating system that opens files directly under /tmp and refuses
    names with a NUL character or in another directory. *)
Definition sample_os_open (path : pystr) : option exn :=
  if existsb (N.eqb 0) path then Some ValueError
  else if startswith path (str "/tmp/") && negb (py_in (str "/") (drop 5 path))
       then None
       else Some (OSError 2).

Definition sample_clock : datetime :=
  {| year := 2025; month := 3; day := 9; hour := 7; minute := 5; second := 0 |}.

Definition sample_world : world :=
  {| fs := ∅; clock := sample_clock; tempdir := str "/tmp"; requests := [] |}.

(** A completion service that answers every prompt with a prose line and a
    README in a markdown fence. *)
Definition sample_completion (prompt : pystr) : result (option pystr) :=
  Ok (Some (str "Here it is:" ++ nl ++ str "```markdown" ++ nl
            ++ str "# TinyUrl" ++ nl ++ str "```")).

Definition sample_view : pystr :=
  str "```java" ++ nl ++ str "class TinyUrl {}" ++ nl ++ str "```".

(** A session that already shows generated code. *)
Definition sample_session : session :=
  {| code_view := {| value := Some sample_view; visible := true |};
     dl_code := {| value := Some (str "/tmp/TinyUrl-20250309-070000.java");
                   visible := true |};
     tests_view := {| value := Some []; visible := true |};
     dl_tests := {| value := None; visible := true |};
     docs_view := {| value := Some []; visible := true |};
     dl_docs := {| value := None; visible := true |};
     alert := {| value := None; visible := false |} |}.

(** A completion service that is out of reach: every call raises. *)
Definition failing_completion (prompt : pystr) : result (option pystr) :=
  Raise (RemoteCallFailure 429).

(** A completion service that answers every prompt with a Java class in a
    java fence. *)
Definition sample_code_completion (prompt : pystr) : result (option pystr) :=
  Ok (Some (str "```java" ++ nl ++ str "class TinyUrl {}" ++ nl ++ str "```")).

(** The sample world one second later, holding a file written before. *)
Definition sample_later_world : world :=
  {| fs := {[ str "/tmp/main-20250309-070500.py" := str "x = 1" ]};
     clock := {| year := 2025; month := 3; day := 9; hour := 7; minute := 5; second := 1 |};
     tempdir := str "/tmp"; requests := [] |}.

(** A completion service whose answer holds a lone surrogate. *)
Definition surrogate_completion (prompt : pystr) : result (option pystr) :=
  Ok (Some [55296]).

(** ** Proof automation *)

(** A character is not among those of a literal: compute the literal and
    refute each position. *)
Ltac not_in_literal :=
  vm_compute;
  let H := fresh "H" in
  intros H;
  repeat (apply elem_of_cons in H as [H|H]; [discriminate H|]);
  by apply elem_of_nil in H.

(** * Lemmas and theorems *)

Example split_example :
  split (str "a```b```c") fence 1 = Ok [str "a"; str "b```c"].
Proof. reflexivity. Qed.

Example rsplit_example :
  rsplit (str "a```b```c") fence 1 = Ok [str "a```b"; str "c"].
Proof. reflexivity. Qed.

Example strip_example : strip (str "  a b  ") = str "a b".
Proof. reflexivity. Qed.

Lemma startswith_true s p : startswith s p = true <-> exists b, s = p ++ b.
Proof.
  revert s. induction p as [|c p IH]; intros s; simpl.
  - split; [intros _; by exists s | by destruct s].
  - destruct s as [|d s]; simpl.
    + split; [done | intros [b Hb]; discriminate].
    + rewrite andb_true_iff, N.eqb_eq, IH. split.
      * intros [-> [b ->]]. by exists b.
      * intros [b Hb]. injection Hb as -> ->. eauto.
Qed.

Lemma startswith_occurs_at s sub : startswith s sub = true <-> occurs_at sub s 0.
Proof.
  rewrite startswith_true. unfold occurs_at. split.
  - intros [b ->]. by exists [], b.
  - intros (a & b & -> & Ha). destruct a; [|done]. by exists b.
Qed.

Lemma occurs_at_cons sub c s j : occurs_at sub (c :: s) (S j) <-> occurs_at sub s j.
Proof.
  unfold occurs_at. split.
  - intros (a & b & Hs & Ha). destruct a as [|c' a]; [done|].
    simpl in *. injection Hs as -> ->. injection Ha as Ha. eauto.
  - intros (a & b & -> & Ha). exists (c :: a), b. simpl. by rewrite Ha.
Qed.

Lemma find_nil sub : find [] sub = if startswith [] sub then Some 0%nat else None.
Proof. reflexivity. Qed.

Lemma find_cons c s sub :
  find (c :: s) sub = if startswith (c :: s) sub then Some 0%nat else S <$> find s sub.
Proof. reflexivity. Qed.

Lemma find_Some s sub i : find s sub = Some i -> first_occurrence sub s i.
Proof.
  revert i. induction s as [|c s IH]; intros i; [rewrite find_nil | rewrite find_cons].
  - destruct (startswith [] sub) eqn:E; [|done].
    intros [= <-]. split; [by apply startswith_occurs_at | lia].
  - destruct (startswith (c :: s) sub) eqn:E.
    + intros [= <-]. split; [by apply startswith_occurs_at | lia].
    + destruct (find s sub) as [i'|] eqn:F; [|done].
      intros [= <-]. destruct (IH i' eq_refl) as [Hocc Hmin]. split.
      * by apply occurs_at_cons.
      * intros [|j] Hj.
        -- rewrite <- startswith_occurs_at. by rewrite E.
        -- rewrite occurs_at_cons. apply Hmin. lia.
Qed.

Lemma find_None s sub : find s sub = None -> ~ occurs sub s.
Proof.
  induction s as [|c s IH]; [rewrite find_nil | rewrite find_cons].
  - destruct (startswith [] sub) eqn:E; [done|]. intros _ [i Hi].
    assert (i = 0%nat) as ->.
    { destruct Hi as (a & b & Hs & <-). by destruct a. }
    apply startswith_occurs_at in Hi. congruence.
  - destruct (startswith (c :: s) sub) eqn:E; [done|].
    destruct (find s sub) eqn:F; [done|]. intros _ [[|j] Hj].
    + apply startswith_occurs_at in Hj. congruence.
    + apply occurs_at_cons in Hj. apply IH; [done | by exists j].
Qed.

Lemma first_occurrence_unique sub s i j :
  first_occurrence sub s i -> first_occurrence sub s j -> i = j.
Proof.
  intros [Hi Hmi] [Hj Hmj].
  destruct (lt_eq_lt_dec i j) as [[Hlt| ->]|Hlt]; [|done|].
  - by destruct (Hmj i Hlt).
  - by destruct (Hmi j Hlt).
Qed.

Lemma first_occurrence_find sub s i : first_occurrence sub s i -> find s sub = Some i.
Proof.
  intros Hi. destruct (find s sub) as [j|] eqn:F.
  - f_equal. eapply first_occurrence_unique; [by apply find_Some | done].
  - destruct (find_None _ _ F). exists i. apply Hi.
Qed.

Lemma not_occurs_find sub s : ~ occurs sub s -> find s sub = None.
Proof.
  intros Hn. destruct (find s sub) as [j|] eqn:F; [|done].
  destruct Hn. exists j. by apply find_Some.
Qed.

Lemma py_in_true sub s : py_in sub s = true <-> occurs sub s.
Proof.
  unfold py_in. destruct (find s sub) as [i|] eqn:F.
  - split; [intros _ | done]. exists i. by apply find_Some.
  - split; [done | intros H; by destruct (find_None _ _ F)].
Qed.

Lemma py_in_false sub s : py_in sub s = false <-> ~ occurs sub s.
Proof. rewrite <- py_in_true. by destruct (py_in sub s). Qed.

Lemma occurs_at_split sub s i :
  occurs_at sub s i -> s = take i s ++ sub ++ drop (i + length sub) s.
Proof.
  intros (a & b & -> & <-).
  rewrite take_app_length. rewrite app_assoc, drop_app_length'.
  - by rewrite <- app_assoc.
  - by rewrite length_app.
Qed.

Lemma up_to_fence_spec t : before_next_fence t (up_to_fence t).
Proof.
  unfold up_to_fence. destruct (find t fence) as [i|] eqn:F.
  - apply bnf_closed. by apply find_Some.
  - apply bnf_open. by apply find_None.
Qed.

Lemma before_next_fence_fun t mid : before_next_fence t mid -> mid = up_to_fence t.
Proof.
  unfold up_to_fence. intros [i Hi|Hn].
  - by rewrite (first_occurrence_find _ _ _ Hi).
  - by rewrite (not_occurs_find _ _ Hn).
Qed.

Lemma snippet_after_found content mark i :
  mark <> [] -> find content mark = Some i ->
  snippet_after content mark
  = Ok (strip (up_to_fence (drop (i + length mark) content))).
Proof.
  intros Hm F. unfold snippet_after, split, up_to_fence.
  destruct mark as [|c mark]; [done|].
  cbn [split_pieces rbind]. rewrite F. cbn [getitem lookup list_lookup rbind].
  unfold fence at 1. cbn [split_pieces rbind].
  destruct (find _ fence) as [j|]; reflexivity.
Qed.

Lemma extract_fenced_block_eq content lang_hint :
  extract_fenced_block content lang_hint
  = Ok (match find content (fence ++ lang_hint) with
        | Some i => strip (up_to_fence (drop (i + length (fence ++ lang_hint)) content))
        | None =>
            match find content fence with
            | Some i => strip (up_to_fence (drop (i + length fence) content))
            | None => strip content
            end
        end).
Proof.
  unfold extract_fenced_block, py_in.
  destruct (find content (fence ++ lang_hint)) as [i|] eqn:F.
  - by rewrite (snippet_after_found _ _ i).
  - destruct (find content fence) as [i|] eqn:G; [|done].
    by rewrite (snippet_after_found _ _ i).
Qed.


(** ** The extractor against its specification *)

Lemma extract_spec_value rawText tag res :
  extract_spec rawText tag res ->
  res = match find rawText (fence ++ tag) with
        | Some i => strip (up_to_fence (drop (i + length (fence ++ tag)) rawText))
        | None =>
            match find rawText fence with
            | Some i => strip (up_to_fence (drop (i + length fence) rawText))
            | None => strip rawText
            end
        end.
Proof.
  intros [i mid Hi Hmid|i mid Hn Hi Hmid|Hn].
  - rewrite (first_occurrence_find _ _ _ Hi).
    by rewrite (before_next_fence_fun _ _ Hmid).
  - rewrite (not_occurs_find _ _ Hn), (first_occurrence_find _ _ _ Hi).
    by rewrite (before_next_fence_fun _ _ Hmid).
  - assert (~ occurs (fence ++ tag) rawText) as Hn'.
    { intros [i (a & b & -> & _)]. apply Hn. exists (length a), a, (tag ++ b).
      by rewrite <- app_assoc. }
    by rewrite (not_occurs_find _ _ Hn'), (not_occurs_find _ _ Hn).
Qed.

Lemma extract_spec_holds rawText tag :
  extract_spec rawText tag
    (match find rawText (fence ++ tag) with
     | Some i => strip (up_to_fence (drop (i + length (fence ++ tag)) rawText))
     | None =>
         match find rawText fence with
         | Some i => strip (up_to_fence (drop (i + length fence) rawText))
         | None => strip rawText
         end
     end).
Proof.
  destruct (find rawText (fence ++ tag)) as [i|] eqn:F.
  - eapply tier_exact; [by apply find_Some | apply up_to_fence_spec].
  - destruct (find rawText fence) as [i|] eqn:G.
    + eapply tier_any_fence;
        [by apply find_None | by apply find_Some | apply up_to_fence_spec].
    + apply tier_raw. by apply find_None.
Qed.

(** C1: the extractor returns, and what it returns is the payload the
    three tiers of the specification describe, in their order: the text after
    the first tagged fence up to the next fence marker, else the text after
    the first fence marker up to the next one, else the whole text; trimmed
    in each case.  No other payload fits that description. *)
Theorem extract_fenced_block_three_tiers (rawText tag : pystr) :
  exists payload,
    extract_fenced_block rawText tag = Ok payload
    /\ extract_spec rawText tag payload
    /\ forall payload', extract_spec rawText tag payload' -> payload' = payload.
Proof.
  eexists. split; [apply extract_fenced_block_eq|]. split.
  - apply extract_spec_holds.
  - apply extract_spec_value.
Qed.

(** C2: extraction is total.  Whatever the response content (absent, empty,
    without a fence, with an unclosed fence, with several fences) and
    whatever the fence tag, the extractor returns a string; neither [try]
    body raises. *)
Theorem extract_fenced_block_total (content : option pystr) (tag : pystr) :
  exists payload,
    extract_fenced_block (message_content content) tag = Ok payload.
Proof. eexists. apply extract_fenced_block_eq. Qed.

(** C10: in the degraded path an unclosed fence yields the whole tail.  When
    the text has a fence marker, no tagged fence, and no further marker after
    the first one, the payload is everything after the first marker,
    trimmed. *)
Theorem extract_unclosed_fence_tail (rawText tag : pystr) (i : nat) :
  first_occurrence fence rawText i ->
  ~ occurs (fence ++ tag) rawText ->
  ~ occurs fence (drop (i + length fence) rawText) ->
  extract_fenced_block rawText tag = Ok (strip (drop (i + length fence) rawText)).
Proof.
  intros Hi Hn Ht. rewrite extract_fenced_block_eq.
  rewrite (not_occurs_find _ _ Hn), (first_occurrence_find _ _ _ Hi).
  unfold up_to_fence. by rewrite (not_occurs_find _ _ Ht).
Qed.

Lemma extract_unclosed_fence_tail_witness :
  extract_fenced_block (str "see ```x = 1 ") (str "python") = Ok (str "x = 1").
Proof.
  apply (extract_unclosed_fence_tail (str "see ```x = 1 ") (str "python") 4).
  - apply find_Some. reflexivity.
  - apply find_None. reflexivity.
  - apply find_None. reflexivity.
Defined.

(** ** Trimming *)

Lemma lstrip_length s : (length (lstrip s) <= length s)%nat.
Proof.
  induction s as [|c s IH]; simpl; [lia|].
  destruct (isspace c); simpl; lia.
Qed.

Lemma lstrip_cons_nonspace c s : isspace c = false -> lstrip (c :: s) = c :: s.
Proof. intros H. simpl. by rewrite H. Qed.

Lemma lstrip_fixed_head c s : lstrip (c :: s) = c :: s -> isspace c = false.
Proof.
  simpl. destruct (isspace c); [|done]. intros H.
  pose proof (lstrip_length s) as Hl. rewrite H in Hl. simpl in Hl. lia.
Qed.

Lemma lstrip_idemp s : lstrip (lstrip s) = lstrip s.
Proof.
  induction s as [|c s IH]; [done|]. simpl.
  destruct (isspace c) eqn:E; [done|]. by apply lstrip_cons_nonspace.
Qed.

Lemma lstrip_snoc_nonspace s c : isspace c = false -> lstrip (s ++ [c]) = lstrip s ++ [c].
Proof.
  intros H. induction s as [|d s IH]; simpl.
  - by rewrite H.
  - by destruct (isspace d).
Qed.

Lemma lstrip_snoc_space s c : isspace c = true -> lstrip (rev (s ++ [c])) = lstrip (rev s).
Proof. intros H. rewrite rev_unit. simpl. by rewrite H. Qed.

Lemma lstrip_rstrip_fixed t : lstrip t = t -> lstrip (rstrip t) = rstrip t.
Proof.
  unfold rstrip. destruct t as [|c t]; [done|]. intros H.
  apply lstrip_fixed_head in H. change (rev (c :: t)) with (rev t ++ [c]).
  rewrite (lstrip_snoc_nonspace _ _ H), rev_unit.
  by apply lstrip_cons_nonspace.
Qed.

Lemma strip_trimmed s : trimmed (strip s).
Proof.
  unfold trimmed, strip. split.
  - apply lstrip_rstrip_fixed, lstrip_idemp.
  - unfold rstrip. rewrite rev_involutive. apply lstrip_idemp.
Qed.

Lemma trimmed_strip s : trimmed s -> strip s = s.
Proof.
  intros [Hl Hr]. unfold strip, rstrip. by rewrite Hl, Hr, rev_involutive.
Qed.

Lemma strip_idemp s : strip (strip s) = strip s.
Proof. apply trimmed_strip, strip_trimmed. Qed.

(** A trimmed string followed by one whitespace character trims back to
    itself. *)
Lemma strip_trimmed_snoc s c : trimmed s -> isspace c = true -> strip (s ++ [c]) = s.
Proof.
  intros [Hl Hr] Hc. unfold strip, rstrip. destruct s as [|d s].
  - simpl. by rewrite Hc.
  - pose proof (lstrip_fixed_head _ _ Hl) as Hd.
    change ((d :: s) ++ [c]) with (d :: (s ++ [c])).
    rewrite (lstrip_cons_nonspace _ _ Hd).
    change (d :: (s ++ [c])) with ((d :: s) ++ [c]).
    by rewrite (lstrip_snoc_space _ _ Hc), Hr, rev_involutive.
Qed.

(** A string that starts and ends with a character that is not whitespace
    is trimmed. *)
Lemma trimmed_ends c s d :
  isspace c = false -> isspace d = false -> trimmed (c :: s ++ [d]).
Proof.
  intros Hc Hd. split.
  - by apply lstrip_cons_nonspace.
  - change (c :: s ++ [d]) with ((c :: s) ++ [d]). rewrite rev_unit.
    by apply lstrip_cons_nonspace.
Qed.

(** ** Reading the code back out of the view *)

Lemma find_startswith s sub : startswith s sub = true -> find s sub = Some 0%nat.
Proof.
  intros H. destruct s; [rewrite find_nil | rewrite find_cons]; by rewrite H.
Qed.

Lemma startswith_cons_single c s d : startswith (c :: s) [d] = (d =? c).
Proof. simpl. destruct s; apply andb_true_r. Qed.

Lemma find_char_None c s : c ∉ s -> find s [c] = None.
Proof.
  induction s as [|d s IH]; intros Hs; [done|].
  rewrite find_cons, startswith_cons_single.
  destruct (N.eqb_spec c d) as [<-|Hc]; [set_solver|].
  rewrite IH; [done | set_solver].
Qed.

Lemma find_char_first c a b : c ∉ a -> find (a ++ c :: b) [c] = Some (length a).
Proof.
  induction a as [|d a IH]; intros Ha.
  - apply find_startswith. simpl. rewrite N.eqb_refl. by destruct b.
  - change ((d :: a) ++ c :: b) with (d :: (a ++ c :: b)).
    rewrite find_cons, startswith_cons_single.
    destruct (N.eqb_spec c d) as [<-|Hc]; [set_solver|].
    rewrite IH; [done | set_solver].
Qed.

Lemma find_nl_None s : 10 ∉ s -> find s nl = None.
Proof. apply find_char_None. Qed.

Lemma find_nl_first a b : 10 ∉ a -> find (a ++ 10 :: b) nl = Some (length a).
Proof. apply find_char_first. Qed.

Lemma drop_first_line_one_line code : 10 ∉ code -> drop_first_line code = Raise IndexError.
Proof.
  intros H. unfold drop_first_line, split, nl. cbn [rbind split_pieces].
  change [10] with nl. by rewrite (find_nl_None _ H).
Qed.

Lemma drop_first_line_cut first rest :
  10 ∉ first -> drop_first_line (first ++ nl ++ rest) = Ok rest.
Proof.
  intros H. unfold drop_first_line, split, nl. cbn [rbind split_pieces].
  change [10] with nl. change (nl ++ rest) with (10 :: rest).
  rewrite (find_nl_first _ _ H). cbn [getitem lookup list_lookup].
  change (length nl) with 1%nat. f_equal.
  change (10 :: rest) with ([10] ++ rest).
  rewrite app_assoc, drop_app_length'; [done|].
  rewrite length_app. simpl. lia.
Qed.

Lemma drop_closing_fence_last body : drop_closing_fence (body ++ fence) = Ok body.
Proof.
  unfold drop_closing_fence, rsplit. unfold fence at 2.
  cbn [rbind split_pieces]. change [96; 96; 96] with fence.
  rewrite rev_app_distr. change (rev fence) with fence.
  rewrite (find_startswith (fence ++ rev body) fence).
  - cbn [take drop length plus]. rewrite drop_app_length. simpl.
    by rewrite rev_involutive.
  - apply startswith_true. by eexists.
Qed.

Lemma wrap_trimmed snippet fence_lang : trimmed (wrap_as_markdown_code snippet fence_lang).
Proof.
  unfold wrap_as_markdown_code.
  replace (fence ++ fence_lang ++ nl ++ strip snippet ++ nl ++ fence)
    with (96 :: ([96; 96] ++ fence_lang ++ nl ++ strip snippet ++ nl ++ [96; 96]) ++ [96]).
  - by apply trimmed_ends.
  - rewrite <- !app_assoc. reflexivity.
Qed.

Lemma viewer_code_wrap payload tag :
  10 ∉ tag -> viewer_code (wrap_as_markdown_code payload tag) = strip payload.
Proof.
  intros Htag. unfold viewer_code.
  rewrite (trimmed_strip _ (wrap_trimmed payload tag)).
  unfold wrap_as_markdown_code.
  assert (startswith (fence ++ tag ++ nl ++ strip payload ++ nl ++ fence) fence = true)
    as -> by (apply startswith_true; by eexists).
  rewrite (app_assoc fence tag), drop_first_line_cut.
  - rewrite (app_assoc (strip payload) nl fence), drop_closing_fence_last.
    apply strip_trimmed_snoc; [apply strip_trimmed | reflexivity].
  - apply not_elem_of_app. split; [|done]. unfold fence.
    repeat (apply not_elem_of_cons; split; [done|]). apply not_elem_of_nil.
Qed.

Lemma viewer_code_one_line view :
  startswith (strip view) fence = true -> 10 ∉ strip view ->
  viewer_code view = strip view.
Proof.
  intros Hf Hn. unfold viewer_code. rewrite Hf.
  by rewrite (drop_first_line_one_line _ Hn).
Qed.

(** C3, as the code has it: wrapping a payload as a fenced block and
    reading the code back out of that view (drop the opening fence line, drop
    the closing fence, trim) returns the payload trimmed of its leading and
    trailing whitespace, for every payload and every tag without a line
    break.  A payload with no whitespace at its ends therefore comes back
    unchanged. *)
Theorem viewer_code_wrap_round_trip (payload tag : pystr) :
  10 ∉ tag ->
  viewer_code (wrap_as_markdown_code payload tag) = strip payload
  /\ (trimmed payload -> viewer_code (wrap_as_markdown_code payload tag) = payload).
Proof.
  intros Htag. split.
  - by apply viewer_code_wrap.
  - intros Ht. rewrite (viewer_code_wrap _ _ Htag). by apply trimmed_strip.
Qed.

Lemma viewer_code_wrap_round_trip_witness :
  viewer_code (wrap_as_markdown_code (str "  return 1") (str "python"))
  = str "return 1".
Proof.
  refine (proj1 (viewer_code_wrap_round_trip (str "  return 1") (str "python") _)).
  not_in_literal.
Defined.

(** C3 as stated fails: an indented payload without any fence marker does
    not come back unchanged. *)
Lemma round_trip_loses_indentation :
  ~ occurs fence (str "  return 1")
  /\ viewer_code (wrap_as_markdown_code (str "  return 1") (str "python"))
     <> str "  return 1".
Proof.
  split.
  - apply find_None. reflexivity.
  - vm_compute. discriminate.
Qed.

(** ** The callbacks *)

Lemma supported_cases language p :
  LANG_PROFILES !! language = Some p ->
  (language = str "python" /\ p = python_profile)
  \/ (language = str "java" /\ p = java_profile)
  \/ (language = str "javascript" /\ p = javascript_profile).
Proof.
  unfold LANG_PROFILES. intros H.
  repeat (rewrite lookup_insert in H; case_decide).
  all: simplify_eq; auto.
Qed.

Lemma supported_nonempty language p :
  LANG_PROFILES !! language = Some p -> is_empty language = false.
Proof. intros H. destruct language; [|done]. by vm_compute in H. Qed.

Lemma write_temp_file_requests os_open text filename w :
  requests (write_temp_file os_open text filename w).2 = requests w.
Proof.
  unfold write_temp_file. destruct (os_open _); [done|].
  by destruct (utf8_encode text).
Qed.

Lemma safe_name_readme ts :
  safe_name (str "README.md") ts = str "README-" ++ ts ++ str ".md".
Proof. reflexivity. Qed.

Section CallbackFacts.

Variable chat_completion : pystr -> result (option pystr).
Variable os_open : pystr -> option exn.

(** The body of [on_generate_tests] once the guard has passed and the
    language is in the table. *)
Lemma on_generate_tests_run view language p w :
  is_empty view = false -> LANG_PROFILES !! language = Some p ->
  on_generate_tests chat_completion os_open view language w =
    (let prompt := tests_prompt_text p (viewer_code view) language in
     match chat_completion prompt with
     | Raise e => (Raise e, log_request prompt w)
     | Ok content =>
         match extract_fenced_block (message_content content) (fence_lang p) with
         | Raise e => (Raise e, log_request prompt w)
         | Ok raw =>
             match write_temp_file os_open raw (example_test_filename p) (log_request prompt w) with
             | (Ok path, w') =>
                 (Ok (ready_outputs (wrap_as_markdown_code raw (fence_lang p)) path), w')
             | (Raise e, w') => (Raise e, w')
             end
         end
     end).
Proof.
  intros Hv Hp. unfold on_generate_tests.
  rewrite Hv, (supported_nonempty _ _ Hp). cbn [orb].
  unfold mbind, M_bind, lift, tests_prompt, dict_getitem, llm_fenced_block, mret, M_ret.
  rewrite Hp. cbn [rbind].
  destruct (chat_completion _) as [content|e]; [|done].
  destruct (extract_fenced_block _ _) as [raw|e]; [|done].
  by destruct (write_temp_file os_open _ _ _) as [[path|e] w'].
Qed.

Lemma on_generate_docs_run view language p w :
  is_empty view = false -> LANG_PROFILES !! language = Some p ->
  on_generate_docs chat_completion os_open view language w =
    (let prompt := docs_prompt_text p (viewer_code view) language in
     match chat_completion prompt with
     | Raise e => (Raise e, log_request prompt w)
     | Ok content =>
         match extract_fenced_block (message_content content) (str "markdown") with
         | Raise e => (Raise e, log_request prompt w)
         | Ok raw =>
             match write_temp_file os_open raw (readme_name p) (log_request prompt w) with
             | (Ok path, w') =>
                 (Ok (ready_outputs (wrap_as_markdown_code raw (str "markdown")) path), w')
             | (Raise e, w') => (Raise e, w')
             end
         end
     end).
Proof.
  intros Hv Hp. unfold on_generate_docs.
  rewrite Hv, (supported_nonempty _ _ Hp). cbn [orb].
  unfold mbind, M_bind, lift, docs_prompt, dict_getitem, llm_fenced_block, mret, M_ret.
  rewrite Hp. cbn [rbind].
  destruct (chat_completion _) as [content|e]; [|done].
  destruct (extract_fenced_block _ _) as [raw|e]; [|done].
  by destruct (write_temp_file os_open _ _ _) as [[path|e] w'].
Qed.

Lemma on_generate_tests_requests view language p w :
  is_empty view = false -> LANG_PROFILES !! language = Some p ->
  requests (on_generate_tests chat_completion os_open view language w).2
  = requests w ++ [tests_prompt_text p (viewer_code view) language].
Proof.
  intros Hv Hp. rewrite (on_generate_tests_run _ _ _ _ Hv Hp). cbv zeta.
  destruct (chat_completion _) as [content|e]; [|done].
  destruct (extract_fenced_block _ _) as [raw|e]; [|done].
  pose proof (write_temp_file_requests os_open raw (example_test_filename p)
                (log_request (tests_prompt_text p (viewer_code view) language) w)) as Hw.
  by destruct (write_temp_file os_open _ _ _) as [[path|e] w'].
Qed.

Lemma on_generate_docs_requests view language p w :
  is_empty view = false -> LANG_PROFILES !! language = Some p ->
  requests (on_generate_docs chat_completion os_open view language w).2
  = requests w ++ [docs_prompt_text p (viewer_code view) language].
Proof.
  intros Hv Hp. rewrite (on_generate_docs_run _ _ _ _ Hv Hp). cbv zeta.
  destruct (chat_completion _) as [content|e]; [|done].
  destruct (extract_fenced_block _ _) as [raw|e]; [|done].
  pose proof (write_temp_file_requests os_open raw (readme_name p)
                (log_request (docs_prompt_text p (viewer_code view) language) w)) as Hw.
  by destruct (write_temp_file os_open _ _ _) as [[path|e] w'].
Qed.

(** C9: a view that is one line starting with a fence marker.  Dropping
    the first line raises [IndexError] inside the [try]; the handler
    swallows it, the code read back is the trimmed view itself, and that is
    the code both callbacks put into the prompt they send. *)
Theorem viewer_code_single_line_fence (view : pystr) :
  view <> [] ->
  startswith (strip view) fence = true ->
  10 ∉ strip view ->
  drop_first_line (strip view) = Raise IndexError
  /\ viewer_code view = strip view
  /\ forall language p w,
       LANG_PROFILES !! language = Some p ->
       requests (on_generate_tests chat_completion os_open view language w).2
       = requests w ++ [tests_prompt_text p (strip view) language]
       /\ requests (on_generate_docs chat_completion os_open view language w).2
          = requests w ++ [docs_prompt_text p (strip view) language].
Proof.
  intros Hv Hf Hn. split; [by apply drop_first_line_one_line|].
  split; [by apply viewer_code_one_line|].
  intros language p w Hp.
  assert (is_empty view = false) as He by by destruct view.
  rewrite (on_generate_tests_requests _ _ _ _ He Hp).
  rewrite (on_generate_docs_requests _ _ _ _ He Hp).
  by rewrite (viewer_code_one_line _ Hf Hn).
Qed.

End CallbackFacts.

Lemma viewer_code_single_line_fence_witness :
  viewer_code (str " ```python ") = str "```python".
Proof.
  refine (proj1 (proj2 (viewer_code_single_line_fence (fun _ => Ok None)
            sample_os_open (str " ```python ") _ _ _))).
  - discriminate.
  - reflexivity.
  - not_in_literal.
Defined.

Lemma nonempty_is_empty (s : pystr) : s <> [] -> is_empty s = false.
Proof. by destruct s. Qed.

Lemma missing_input_is_empty (a b : pystr) :
  a = [] \/ b = [] -> is_empty a || is_empty b = true.
Proof. intros [-> | ->]; [done|]. by destruct a. Qed.

Section CallbackOutcomes.

Variable chat_completion : pystr -> result (option pystr).
Variable os_open : pystr -> option exn.

Lemma on_generate_code_guard requirements language w :
  requirements = [] \/ language = [] ->
  on_generate_code chat_completion os_open requirements language w
  = (Ok (error_outputs missing_requirements), w).
Proof.
  intros H. unfold on_generate_code. by rewrite (missing_input_is_empty _ _ H).
Qed.

(** C4, as the code has it: with empty requirements or an empty language,
    generate-code returns the error triple (the alert shown with a message,
    no file path), sends no completion request and writes no file.  The
    triple sets the code view to the empty string and the code download to
    nothing; the tests and docs tabs keep what they had. *)
Theorem on_generate_code_missing_input (requirements language : pystr)
    (w : world) (s : session) :
  requirements = [] \/ language = [] ->
  on_generate_code chat_completion os_open requirements language w
  = (Ok (error_outputs missing_requirements), w)
  /\ exists s',
       click_gen_code chat_completion os_open requirements language s w = (Ok s', w)
       /\ value (code_view s') = Some [] /\ value (dl_code s') = None
       /\ value (alert s') = Some missing_requirements /\ visible (alert s') = true
       /\ tests_view s' = tests_view s /\ dl_tests s' = dl_tests s
       /\ docs_view s' = docs_view s /\ dl_docs s' = dl_docs s.
Proof.
  intros H. split; [by apply on_generate_code_guard|].
  unfold click_gen_code, mbind, M_bind.
  rewrite (on_generate_code_guard _ _ _ H). cbn.
  eexists. split; [reflexivity|]. cbn. by repeat split.
Qed.

(** C5: a language that is not in the table.  generate-code tests for it
    and returns the error triple; generate-tests and generate-docs have no
    such test and raise the [KeyError] of the table lookup. *)
Theorem unsupported_language_outcomes (text language : pystr) (w : world) :
  text <> [] -> language <> [] -> LANG_PROFILES !! language = None ->
  on_generate_code chat_completion os_open text language w
  = (Ok (error_outputs (unsupported_language language)), w)
  /\ on_generate_tests chat_completion os_open text language w
     = (Raise (KeyError language), w)
  /\ on_generate_docs chat_completion os_open text language w
     = (Raise (KeyError language), w).
Proof.
  intros Ht Hl Hp.
  unfold on_generate_code, on_generate_tests, on_generate_docs.
  rewrite (nonempty_is_empty _ Ht), (nonempty_is_empty _ Hl). cbn [orb].
  unfold dict_contains, mbind, M_bind, lift, tests_prompt, docs_prompt, dict_getitem.
  rewrite Hp. by cbn.
Qed.

(** C8: when generate-docs passes its guard for a language of the table
    and returns, the payload was extracted from the response with the tag
    "markdown", whatever the language; the view is the opening fence line
    ```markdown, the payload, and the closing fence; and the payload is the
    content of the file written under the profile's README name, which is
    README-<timestamp>.md in the temporary directory. *)
Theorem on_generate_docs_success (view language : pystr) (p : LanguageProfile)
    (w w' : world) (outs : outputs) :
  view <> [] ->
  LANG_PROFILES !! language = Some p ->
  on_generate_docs chat_completion os_open view language w = (Ok outs, w') ->
  exists content raw_md path bytes,
    chat_completion (docs_prompt_text p (viewer_code view) language) = Ok content
    /\ extract_fenced_block (message_content content) (str "markdown") = Ok raw_md
    /\ outs = (OutStr (fence ++ str "markdown" ++ nl ++ raw_md ++ nl ++ fence),
               OutStr path,
               OutUpdate {| upd_value := Some []; upd_visible := Some false |})
    /\ write_temp_file os_open raw_md (readme_name p)
         (log_request (docs_prompt_text p (viewer_code view) language) w)
       = (Ok path, w')
    /\ readme_name p = str "README.md"
    /\ path = path_join (tempdir w) (str "README-" ++ strftime (clock w) ++ str ".md")
    /\ utf8_encode raw_md = Some bytes
    /\ fs w' !! path = Some bytes
    /\ fs w' = <[path := bytes]> (fs w)
    /\ requests w' = requests w ++ [docs_prompt_text p (viewer_code view) language].
Proof.
  intros Hv%nonempty_is_empty Hp Hrun.
  rewrite (on_generate_docs_run _ _ _ _ _ _ Hv Hp) in Hrun. cbv zeta in Hrun.
  destruct (chat_completion _) as [content|e] eqn:Hc; [|done].
  destruct (extract_fenced_block _ _) as [raw|e] eqn:He; [|done].
  destruct (write_temp_file os_open _ _ _) as [[path|e] w1] eqn:Hw; [|done].
  injection Hrun as <- <-.
  assert (readme_name p = str "README.md") as Hname.
  { by destruct (supported_cases _ _ Hp) as [[_ ->]|[[_ ->]|[_ ->]]]. }
  assert (strip raw = raw) as Hraw.
  { rewrite extract_fenced_block_eq in He. injection He as <-.
    repeat case_match; apply strip_idemp. }
  pose proof Hw as Hw2. rewrite Hname in Hw2. unfold write_temp_file in Hw2.
  rewrite safe_name_readme in Hw2. change (clock (log_request _ w)) with (clock w) in Hw2.
  change (tempdir (log_request _ w)) with (tempdir w) in Hw2.
  destruct (os_open _) as [e|]; [done|].
  destruct (utf8_encode raw) as [bytes|] eqn:Hu; [|done].
  assert (path = path_join (tempdir w)
                   (str "README-" ++ strftime (clock w) ++ str ".md")) as Hpath
    by congruence.
  assert (w1 = set_file path bytes
                 (log_request (docs_prompt_text p (viewer_code view) language) w))
    as Hw1 by congruence.
  exists content, raw, path, bytes.
  unfold ready_outputs, wrap_as_markdown_code. rewrite Hraw.
  repeat split; try done.
  - rewrite Hw1. apply lookup_insert_eq.
  - by rewrite Hw1.
  - by rewrite Hw1.
Qed.

End CallbackOutcomes.

Lemma on_generate_code_missing_input_witness :
  on_generate_code sample_completion sample_os_open [] (str "java") sample_world
  = (Ok (error_outputs missing_requirements), sample_world).
Proof.
  exact (proj1 (on_generate_code_missing_input sample_completion sample_os_open [] (str "java")
                  sample_world sample_session (or_introl eq_refl))).
Defined.

(** C4 as stated fails: the session shows generated code; Generate Code
    with empty requirements returns the error triple, and with it the code
    view and the code download lose what they held. *)
Lemma missing_requirements_clear_code_view :
  exists s',
    click_gen_code sample_completion sample_os_open [] (str "java") sample_session sample_world
    = (Ok s', sample_world)
    /\ value (code_view sample_session) = Some sample_view
    /\ value (code_view s') = Some []
    /\ value (code_view s') <> value (code_view sample_session)
    /\ value (dl_code s') <> value (dl_code sample_session).
Proof.
  eexists. split; [reflexivity|]. repeat split; try reflexivity.
  - vm_compute. discriminate.
  - vm_compute. discriminate.
Qed.

Lemma unsupported_language_outcomes_witness :
  on_generate_code sample_completion sample_os_open sample_view (str "ruby") sample_world
  = (Ok (error_outputs (unsupported_language (str "ruby"))), sample_world)
  /\ on_generate_tests sample_completion sample_os_open sample_view (str "ruby") sample_world
     = (Raise (KeyError (str "ruby")), sample_world)
  /\ on_generate_docs sample_completion sample_os_open sample_view (str "ruby") sample_world
     = (Raise (KeyError (str "ruby")), sample_world).
Proof.
  apply (unsupported_language_outcomes sample_completion sample_os_open sample_view (str "ruby")
           sample_world).
  - discriminate.
  - discriminate.
  - reflexivity.
Defined.

Lemma on_generate_docs_success_witness :
  exists content raw_md path bytes,
    sample_completion (docs_prompt_text java_profile (viewer_code sample_view) (str "java"))
    = Ok content
    /\ extract_fenced_block (message_content content) (str "markdown") = Ok raw_md
    /\ (OutStr (str "```markdown" ++ nl ++ str "# TinyUrl" ++ nl ++ str "```"),
        OutStr (str "/tmp/README-20250309-070500.md"),
        OutUpdate {| upd_value := Some []; upd_visible := Some false |})
       = (OutStr (fence ++ str "markdown" ++ nl ++ raw_md ++ nl ++ fence),
          OutStr path,
          OutUpdate {| upd_value := Some []; upd_visible := Some false |})
    /\ write_temp_file sample_os_open raw_md (readme_name java_profile)
         (log_request
            (docs_prompt_text java_profile (viewer_code sample_view) (str "java"))
            sample_world)
       = (Ok path,
          (on_generate_docs sample_completion sample_os_open sample_view (str "java")
             sample_world).2)
    /\ readme_name java_profile = str "README.md"
    /\ path = path_join (tempdir sample_world)
                (str "README-" ++ strftime (clock sample_world) ++ str ".md")
    /\ utf8_encode raw_md = Some bytes
    /\ fs (on_generate_docs sample_completion sample_os_open sample_view (str "java")
             sample_world).2 !! path = Some bytes
    /\ fs (on_generate_docs sample_completion sample_os_open sample_view (str "java")
             sample_world).2 = <[path := bytes]> (fs sample_world)
    /\ requests (on_generate_docs sample_completion sample_os_open sample_view (str "java")
                   sample_world).2
       = requests sample_world
         ++ [docs_prompt_text java_profile (viewer_code sample_view) (str "java")].
Proof.
  apply (on_generate_docs_success sample_completion sample_os_open sample_view (str "java")
           java_profile sample_world).
  - discriminate.
  - reflexivity.
  - vm_compute. reflexivity.
Defined.

(** ** The artifact writer *)




















(** Before the year 1000 the year prints with fewer digits, and the
    timestamp has no eight-digit date. *)
Example strftime_short_year :
  strftime {| year := 999; month := 3; day := 9; hour := 7; minute := 5; second := 0 |}
  = str "9990309-070500".
Proof. reflexivity. Qed.

Lemma write_temp_file_encodable os_open text filename bytes w :
  os_open (path_join (tempdir w) (safe_name filename (strftime (clock w)))) = None ->
  utf8_encode text = Some bytes ->
  write_temp_file os_open text filename w
  = (Ok (path_join (tempdir w) (safe_name filename (strftime (clock w)))),
     set_file (path_join (tempdir w) (safe_name filename (strftime (clock w)))) bytes w).
Proof. intros Ho H. unfold write_temp_file. by rewrite Ho, H. Qed.

Lemma set_file_lookup path bytes w : fs (set_file path bytes w) !! path = Some bytes.
Proof. apply lookup_insert_eq. Qed.






(** Where the operating system refuses the name, the write raises what
    [open] raises and changes nothing. *)
Example write_temp_file_missing_directory :
  write_temp_file sample_os_open (str "print(1)") (str "nosuchdir/README") sample_world
  = (Raise (OSError 2), sample_world).
Proof. reflexivity. Qed.


(** ** [dedent] keeps the text of a line *)

Lemma occurs_intro a sub b : occurs sub (a ++ sub ++ b).
Proof. exists (length a), a, b. done. Qed.

Lemma occurs_elim sub s : occurs sub s -> exists a b, s = a ++ sub ++ b.
Proof. intros (i & a & b & -> & _). eauto. Qed.

Lemma occurs_trans a b c : occurs a b -> occurs b c -> occurs a c.
Proof.
  intros (x & y & ->)%occurs_elim (u & v & ->)%occurs_elim.
  replace (u ++ (x ++ a ++ y) ++ v) with ((u ++ x) ++ a ++ (y ++ v))
    by by rewrite <- !app_assoc.
  apply occurs_intro.
Qed.

Lemma occurs_suffix a sub : occurs sub (a ++ sub).
Proof. rewrite <- (app_nil_r sub) at 2. apply occurs_intro. Qed.

Lemma occurs_nil s : occurs [] s.
Proof. exists 0%nat, [], s. done. Qed.

Lemma splitlines_nonempty s : splitlines s <> [].
Proof.
  destruct s as [|c s]; simpl; [done|].
  destruct (c =? 10); [done|]. by destruct (splitlines s).
Qed.

Lemma splitlines_app a b : splitlines (a ++ 10 :: b) = splitlines a ++ splitlines b.
Proof.
  induction a as [|c a IH]; [done|]. simpl. rewrite IH.
  destruct (c =? 10); [done|].
  pose proof (splitlines_nonempty a). by destruct (splitlines a).
Qed.

Lemma splitlines_one_line l : 10 ∉ l -> splitlines l = [l].
Proof.
  induction l as [|c l IH]; intros H; [done|]. simpl.
  destruct (N.eqb_spec c 10) as [->|Hc]; [set_solver|].
  rewrite IH; [done | set_solver].
Qed.

Lemma join_lines_occurs l ls : l ∈ ls -> occurs l (join_lines ls).
Proof.
  induction ls as [|l' ls IH]; intros H; [by apply elem_of_nil in H|].
  apply elem_of_cons in H as [->|H].
  - destruct ls as [|l2 ls]; simpl.
    + apply (occurs_suffix []).
    + apply (occurs_intro []).
  - specialize (IH H). destruct ls as [|l2 ls]; [by apply elem_of_nil in H|].
    change (join_lines (l' :: l2 :: ls)) with (l' ++ nl ++ join_lines (l2 :: ls)).
    eapply occurs_trans; [exact IH|].
    rewrite app_assoc. apply occurs_suffix.
Qed.

Lemma cut_at_mismatch_prefix_l m x : cut_at_mismatch m x `prefix_of` m.
Proof.
  revert x. induction m as [|c m IH]; intros x; simpl.
  - by destruct x.
  - destruct x as [|d x]; [done|]. destruct (c =? d).
    + apply prefix_cons, IH.
    + apply prefix_nil.
Qed.

Lemma cut_at_mismatch_prefix_r m x :
  startswith m x = false -> cut_at_mismatch m x `prefix_of` x.
Proof.
  revert x. induction m as [|c m IH]; intros x; simpl.
  - intros _. destruct x; apply prefix_nil.
  - destruct x as [|d x]; [done|]. simpl.
    destruct (N.eqb_spec d c) as [->|Hdc].
    + rewrite N.eqb_refl. simpl. intros H. apply prefix_cons, IH, H.
    + intros _. destruct (N.eqb_spec c d) as [->|_]; [done|]. apply prefix_nil.
Qed.

Lemma startswith_prefix s p : startswith s p = true <-> p `prefix_of` s.
Proof. apply startswith_true. Qed.

Lemma margin_step_prefix m x :
  exists m', margin_step (Some m) x = Some m' /\ m' `prefix_of` m /\ m' `prefix_of` x.
Proof.
  unfold margin_step. destruct (startswith x m) eqn:E1.
  - exists m. by rewrite startswith_prefix in E1.
  - destruct (startswith m x) eqn:E2.
    + exists x. by rewrite startswith_prefix in E2.
    + eexists. split; [done|]. split.
      * apply cut_at_mismatch_prefix_l.
      * by apply cut_at_mismatch_prefix_r.
Qed.

Lemma margin_fold_prefix indents : forall m0 m,
  foldl margin_step (Some m0) indents = Some m ->
  m `prefix_of` m0 /\ forall x, x ∈ indents -> m `prefix_of` x.
Proof.
  induction indents as [|x indents IH]; intros m0 m.
  - simpl. intros [= ->]. split; [done|]. intros x H. by apply elem_of_nil in H.
  - change (foldl margin_step (Some m0) (x :: indents))
      with (foldl margin_step (margin_step (Some m0) x) indents).
    destruct (margin_step_prefix m0 x) as (m1 & -> & H0 & Hx). intros Hf.
    destruct (IH _ _ Hf) as [H1 Hall]. split; [by etrans|].
    intros y [->|Hy]%elem_of_cons; [by etrans | by apply Hall].
Qed.

Lemma margin_prefix indents m x :
  foldl margin_step None indents = Some m -> x ∈ indents -> m `prefix_of` x.
Proof.
  destruct indents as [|x0 indents]; [done|]. simpl. intros Hf.
  destruct (margin_fold_prefix _ _ _ Hf) as [H0 Hall].
  intros [->|Hx]%elem_of_cons; [done | by apply Hall].
Qed.

Lemma indent_of_app ind c rest :
  forallb is_indent_char ind = true -> is_indent_char c = false ->
  indent_of (ind ++ c :: rest) = ind.
Proof.
  intros Hi Hc. induction ind as [|d ind IH]; simpl.
  - by rewrite Hc.
  - simpl in Hi. apply andb_true_iff in Hi as [Hd Hi]. by rewrite Hd, IH.
Qed.

Lemma blank_line_body ind c rest :
  is_indent_char c = false -> blank_line (ind ++ c :: rest) = ind ++ c :: rest.
Proof.
  intros Hc. unfold blank_line. rewrite forallb_app. simpl. rewrite Hc.
  by rewrite andb_false_r.
Qed.

Lemma indent_no_newline ind : forallb is_indent_char ind = true -> 10 ∉ ind.
Proof.
  induction ind as [|d ind IH]; simpl; [intros _; apply not_elem_of_nil|].
  intros [Hd Hi]%andb_true_iff. apply not_elem_of_cons. split; [|by apply IH].
  intros <-. discriminate Hd.
Qed.

Lemma remove_margin_occurs m ind body :
  m `prefix_of` ind -> occurs body (remove_margin m (ind ++ body)).
Proof.
  intros [k ->]. unfold remove_margin.
  assert (startswith ((m ++ k) ++ body) m = true) as ->.
  { apply startswith_true. exists (k ++ body). by rewrite <- app_assoc. }
  rewrite <- app_assoc, drop_app_length. apply occurs_suffix.
Qed.

(** A line of the text that has something after its indentation: whatever
    margin [dedent] removes, what follows the indentation is still there. *)
Lemma dedent_keeps_body pre ind c rest post :
  forallb is_indent_char ind = true ->
  is_indent_char c = false ->
  10 ∉ c :: rest ->
  occurs (c :: rest) (dedent (pre ++ nl ++ (ind ++ c :: rest) ++ nl ++ post)).
Proof.
  intros Hind Hc Hnl.
  assert (10 ∉ ind ++ c :: rest) as Hline.
  { apply not_elem_of_app. split; [by apply indent_no_newline | done]. }
  unfold dedent.
  assert (splitlines (pre ++ nl ++ (ind ++ c :: rest) ++ nl ++ post)
          = splitlines pre ++ [ind ++ c :: rest] ++ splitlines post) as ->.
  { change (nl ++ (ind ++ c :: rest) ++ nl ++ post)
      with (10 :: ((ind ++ c :: rest) ++ 10 :: post)).
    by rewrite !splitlines_app, (splitlines_one_line _ Hline). }
  rewrite !map_app. cbn [List.map]. rewrite (blank_line_body _ _ _ Hc).
  set (before := List.map blank_line (splitlines pre)).
  set (after := List.map blank_line (splitlines post)).
  set (ls := before ++ [ind ++ c :: rest] ++ after).
  assert (ind ++ c :: rest ∈ ls) as Hin.
  { unfold ls. rewrite !elem_of_app. right. left. apply list_elem_of_singleton. done. }
  destruct (foldl margin_step None _) as [[|d m]|] eqn:Hm.
  - eapply occurs_trans; [apply occurs_suffix | by apply join_lines_occurs].
  - assert ((d :: m) `prefix_of` ind) as Hpre.
    { eapply margin_prefix; [exact Hm|].
      rewrite <- (indent_of_app ind c rest Hind Hc).
      apply list_elem_of_In, in_map, filter_In. split.
      - by apply list_elem_of_In.
      - by destruct ind. }
    eapply occurs_trans; [by apply remove_margin_occurs|].
    apply join_lines_occurs, list_elem_of_In, in_map. by apply list_elem_of_In.
  - eapply occurs_trans; [apply occurs_suffix | by apply join_lines_occurs].
Qed.

(** ** The code prompt *)

Lemma indent_char_isspace c : isspace c = false -> is_indent_char c = false.
Proof.
  unfold is_indent_char. intros H.
  destruct (N.eqb_spec c 32) as [->|_]; [discriminate H|].
  destruct (N.eqb_spec c 9) as [->|_]; [discriminate H | done].
Qed.

Lemma strip_head c rest s : strip s = c :: rest -> isspace c = false.
Proof.
  intros H. destruct (strip_trimmed s) as [Hl _]. rewrite H in Hl.
  by apply lstrip_fixed_head in Hl.
Qed.

Lemma example_filename_one_line language p :
  LANG_PROFILES !! language = Some p -> 10 ∉ example_filename p.
Proof.
  intros [[_ ->]|[[_ ->]|[_ ->]]]%supported_cases; not_in_literal.
Qed.

Lemma code_prompt_text_filename p requirements language :
  10 ∉ example_filename p ->
  occurs (example_filename p) (code_prompt_text p requirements language).
Proof.
  intros Hname. unfold code_prompt_text.
  apply (occurs_trans _ (45 :: str " Prefer a filename like: " ++ example_filename p));
    [apply (occurs_suffix (45 :: str " Prefer a filename like: "))|].
  match goal with
  | |- occurs _ (dedent (nl ++ ?a1 ++ language ++ ?a2 ++ nl ++ nl ++ ?a3 ++ nl
                         ++ ?a4 ++ ?r ++ nl ++ nl ++ ?a5 ++ nl ++ ?a6 ++ language
                         ++ ?a7 ++ nl ++ ?a8 ++ nl ++ ?a9 ++ nl ++ ?a10 ++ nl
                         ++ ?a11 ++ nl ++ ?a12 ++ ?f ++ nl ++ ?tail)) =>
      replace (nl ++ a1 ++ language ++ a2 ++ nl ++ nl ++ a3 ++ nl
               ++ a4 ++ r ++ nl ++ nl ++ a5 ++ nl ++ a6 ++ language
               ++ a7 ++ nl ++ a8 ++ nl ++ a9 ++ nl ++ a10 ++ nl
               ++ a11 ++ nl ++ a12 ++ f ++ nl ++ tail)
        with ((nl ++ a1 ++ language ++ a2 ++ nl ++ nl ++ a3 ++ nl
               ++ a4 ++ r ++ nl ++ nl ++ a5 ++ nl ++ a6 ++ language
               ++ a7 ++ nl ++ a8 ++ nl ++ a9 ++ nl ++ a10 ++ nl ++ a11)
              ++ nl ++ (str "    " ++ 45 :: str " Prefer a filename like: " ++ f)
              ++ nl ++ tail)
        by (rewrite <- !app_assoc; reflexivity)
  end.
  apply dedent_keeps_body; [reflexivity | reflexivity |].
  apply not_elem_of_cons. split; [done|].
  apply not_elem_of_app. split; [|done].
  not_in_literal.
Qed.

(** * Further properties of the code *)

(** ** What the extractor returns *)

Lemma lstrip_suffix s : exists a, s = a ++ lstrip s.
Proof.
  induction s as [|c s [a IH]]; [by exists []|]. simpl.
  destruct (isspace c); [|by exists []].
  exists (c :: a). simpl. by rewrite <- IH.
Qed.

Lemma rstrip_prefix s : exists b, s = rstrip s ++ b.
Proof.
  unfold rstrip. destruct (lstrip_suffix (rev s)) as [a Ha].
  exists (rev a). rewrite <- rev_app_distr, <- Ha. by rewrite rev_involutive.
Qed.

Lemma strip_occurs s : occurs (strip s) s.
Proof.
  unfold strip. destruct (lstrip_suffix s) as [a Ha].
  destruct (rstrip_prefix (lstrip s)) as [b Hb].
  rewrite Ha at 2. rewrite Hb at 2. apply occurs_intro.
Qed.

Lemma take_occurs_at sub s i j :
  occurs_at sub (take i s) j -> occurs_at sub s j /\ (j + length sub <= i)%nat.
Proof.
  intros (a & b & Ht & <-). split.
  - exists a, (b ++ drop i s). rewrite <- (take_drop i s) at 1.
    rewrite Ht. by rewrite <- !app_assoc.
  - pose proof (length_take s i) as Hl. rewrite Ht, !length_app in Hl. lia.
Qed.

Lemma up_to_fence_no_fence t : ~ occurs fence (up_to_fence t).
Proof.
  unfold up_to_fence. destruct (find t fence) as [i|] eqn:F.
  - destruct (find_Some _ _ _ F) as [_ Hmin]. intros [j Hj].
    apply take_occurs_at in Hj as [Hj Hlen]. apply (Hmin j); [|done].
    change (length fence) with 3%nat in Hlen. lia.
  - by apply find_None.
Qed.

Lemma no_fence_after_tag s tag : ~ occurs fence s -> ~ occurs (fence ++ tag) s.
Proof.
  intros Hn [i (a & b & -> & _)]. apply Hn. exists (length a), a, (tag ++ b).
  by rewrite <- app_assoc.
Qed.

Lemma extract_fenced_block_clean content tag :
  exists payload,
    extract_fenced_block content tag = Ok payload
    /\ trimmed payload
    /\ ~ occurs fence payload.
Proof.
  eexists. split; [apply extract_fenced_block_eq|].
  destruct (find content (fence ++ tag)) as [i|] eqn:F;
    [|destruct (find content fence) as [i|] eqn:G].
  1,2: split; [apply strip_trimmed|]; intros H;
       eapply up_to_fence_no_fence, occurs_trans; [exact H | apply strip_occurs].
  split; [apply strip_trimmed|]. intros H. apply (find_None _ _ G).
  eapply occurs_trans; [exact H | apply strip_occurs].
Qed.

(** The payload of the extractor has no whitespace at its ends and holds no
    fence marker, whatever the response and the tag. *)
Theorem extract_fenced_block_payload_clean (content tag : pystr) :
  exists payload,
    extract_fenced_block content tag = Ok payload
    /\ trimmed payload
    /\ ~ occurs fence payload.
Proof. apply extract_fenced_block_clean. Qed.

Lemma no_fence_tail c s : ~ occurs fence (c :: s) -> ~ occurs fence s.
Proof. intros Hn [j Hj]. apply Hn. exists (S j). by apply occurs_at_cons. Qed.

Lemma startswith_fence_line body :
  ~ occurs fence body -> startswith (body ++ 10 :: fence) fence = false.
Proof.
  intros Hn. destruct (startswith _ fence) eqn:E; [|done].
  apply startswith_true in E as [b Hb]. unfold fence in Hb.
  destruct body as [|c [|d [|e r]]]; simpl in Hb; try discriminate Hb.
  injection Hb as -> -> -> _. destruct Hn. exists 0%nat. by exists [], r.
Qed.

Lemma find_fence_after_line body :
  ~ occurs fence body -> find (body ++ 10 :: fence) fence = Some (S (length body)).
Proof.
  induction body as [|c body IH]; intros Hn; [reflexivity|].
  change ((c :: body) ++ 10 :: fence) with (c :: (body ++ 10 :: fence)).
  rewrite find_cons.
  change (c :: (body ++ 10 :: fence)) with ((c :: body) ++ 10 :: fence).
  rewrite (startswith_fence_line _ Hn), IH; [done|]. by eapply no_fence_tail.
Qed.

Lemma strip_leading_space c s : isspace c = true -> strip (c :: s) = strip s.
Proof. intros H. unfold strip. simpl. by rewrite H. Qed.

(** Extracting from a block this program wrapped, with the tag it was
    wrapped with, gives back the payload trimmed, when the payload holds no
    fence marker. *)
Theorem extract_fenced_block_wrap (payload tag : pystr) :
  ~ occurs fence payload ->
  extract_fenced_block (wrap_as_markdown_code payload tag) tag = Ok (strip payload).
Proof.
  intros Hn. rewrite extract_fenced_block_eq. unfold wrap_as_markdown_code.
  rewrite (app_assoc fence tag).
  rewrite (find_startswith _ (fence ++ tag)) by (apply startswith_true; by eexists).
  change (0 + length (fence ++ tag))%nat with (length (fence ++ tag)).
  rewrite drop_app_length. f_equal. unfold up_to_fence.
  assert (~ occurs fence (strip payload)) as Hs.
  { intros H. apply Hn. eapply occurs_trans; [exact H | apply strip_occurs]. }
  change (nl ++ strip payload ++ nl ++ fence)
    with (10 :: (strip payload ++ 10 :: fence)).
  rewrite find_cons.
  assert (startswith (10 :: strip payload ++ 10 :: fence) fence = false) as ->
    by reflexivity.
  rewrite (find_fence_after_line _ Hs). cbn [fmap option_fmap option_map take].
  replace (strip payload ++ 10 :: fence) with ((strip payload ++ [10]) ++ fence)
    by by rewrite <- app_assoc.
  rewrite take_app_length' by (rewrite length_app; simpl; lia).
  rewrite strip_leading_space by reflexivity.
  apply strip_trimmed_snoc; [apply strip_trimmed | reflexivity].
Qed.

Lemma extract_fenced_block_wrap_witness :
  extract_fenced_block (wrap_as_markdown_code (str " x = 1 ") (str "python")) (str "python")
  = Ok (str "x = 1").
Proof.
  apply (extract_fenced_block_wrap (str " x = 1 ") (str "python")).
  apply find_None. reflexivity.
Defined.

(** ** The callbacks, end to end *)


Lemma write_temp_file_outcome os_open text filename w :
  let path := path_join (tempdir w) (safe_name filename (strftime (clock w))) in
  (exists bytes, os_open path = None /\ utf8_encode text = Some bytes
     /\ write_temp_file os_open text filename w = (Ok path, set_file path bytes w))
  \/ (os_open path = None /\ utf8_encode text = None
      /\ write_temp_file os_open text filename w
         = (Raise UnicodeEncodeError, set_file path [] w))
  \/ (exists e, os_open path = Some e
       /\ write_temp_file os_open text filename w = (Raise e, w)).
Proof.
  unfold write_temp_file. cbv zeta.
  destruct (os_open _) as [e|]; [by eauto 6|].
  destruct (utf8_encode text) as [bytes|]; eauto 6.
Qed.

Section CallbackRuns.

Variable chat_completion : pystr -> result (option pystr).
Variable os_open : pystr -> option exn.

(** The body of [on_generate_code] once both guards have passed. *)
Lemma on_generate_code_run requirements language p w :
  requirements <> [] -> LANG_PROFILES !! language = Some p ->
  on_generate_code chat_completion os_open requirements language w =
    (let prompt := code_prompt_text p requirements language in
     match chat_completion prompt with
     | Raise e => (Raise e, log_request prompt w)
     | Ok content =>
         match extract_fenced_block (message_content content) (fence_lang p) with
         | Raise e => (Raise e, log_request prompt w)
         | Ok raw =>
             match write_temp_file os_open raw (example_filename p) (log_request prompt w) with
             | (Ok path, w') =>
                 (Ok (ready_outputs (wrap_as_markdown_code raw (fence_lang p)) path), w')
             | (Raise e, w') => (Raise e, w')
             end
         end
     end).
Proof.
  intros Hr%nonempty_is_empty Hp. unfold on_generate_code.
  rewrite Hr, (supported_nonempty _ _ Hp). cbn [orb].
  unfold dict_contains, mbind, M_bind, lift, code_prompt, dict_getitem,
    llm_fenced_block, mret, M_ret.
  rewrite Hp. cbn [rbind negb].
  destruct (chat_completion _) as [content|e]; [|done].
  destruct (extract_fenced_block _ _) as [raw|e]; [|done].
  by destruct (write_temp_file os_open _ _ _) as [[path|e] w'].
Qed.

(** Guard of generate-tests and generate-docs: with an empty code view or
    an empty language both return the error triple that asks to generate
    code first; no request is sent and no file is written. *)
Theorem tests_and_docs_missing_input (current_code_md language : pystr) (w : world) :
  current_code_md = [] \/ language = [] ->
  on_generate_tests chat_completion os_open current_code_md language w
  = (Ok (error_outputs missing_code), w)
  /\ on_generate_docs chat_completion os_open current_code_md language w
     = (Ok (error_outputs missing_code), w).
Proof.
  intros H. unfold on_generate_tests, on_generate_docs.
  by rewrite (missing_input_is_empty _ _ H).
Qed.

(** A failure of the completion call is not caught: a callback whose own
    prompt makes the call raise raises the same exception, after the prompt
    was sent and before any file is written. *)
Theorem completion_failure_propagates (text language : pystr) (p : LanguageProfile)
    (w : world) (e : exn) :
  text <> [] ->
  LANG_PROFILES !! language = Some p ->
  (chat_completion (code_prompt_text p text language) = Raise e ->
   on_generate_code chat_completion os_open text language w
   = (Raise e, log_request (code_prompt_text p text language) w))
  /\ (chat_completion (tests_prompt_text p (viewer_code text) language) = Raise e ->
      on_generate_tests chat_completion os_open text language w
      = (Raise e, log_request (tests_prompt_text p (viewer_code text) language) w))
  /\ (chat_completion (docs_prompt_text p (viewer_code text) language) = Raise e ->
      on_generate_docs chat_completion os_open text language w
      = (Raise e, log_request (docs_prompt_text p (viewer_code text) language) w))
  /\ (forall prompt, fs (log_request prompt w) = fs w).
Proof.
  intros Ht Hp.
  rewrite (on_generate_code_run _ _ _ _ Ht Hp).
  rewrite (on_generate_tests_run _ _ _ _ _ _ (nonempty_is_empty _ Ht) Hp).
  rewrite (on_generate_docs_run _ _ _ _ _ _ (nonempty_is_empty _ Ht) Hp).
  cbv zeta. repeat split; try by intros ->.
Qed.


End CallbackRuns.

Lemma tests_and_docs_missing_input_witness :
  on_generate_tests sample_completion sample_os_open [] (str "java") sample_world
  = (Ok (error_outputs missing_code), sample_world)
  /\ on_generate_docs sample_completion sample_os_open [] (str "java") sample_world
     = (Ok (error_outputs missing_code), sample_world).
Proof.
  apply (tests_and_docs_missing_input sample_completion sample_os_open [] (str "java") sample_world).
  by left.
Defined.

Lemma completion_failure_propagates_witness :
  on_generate_code failing_completion sample_os_open sample_view (str "java") sample_world
  = (Raise (RemoteCallFailure 429),
     log_request (code_prompt_text java_profile sample_view (str "java")) sample_world)
  /\ on_generate_tests failing_completion sample_os_open sample_view (str "java") sample_world
     = (Raise (RemoteCallFailure 429),
        log_request (tests_prompt_text java_profile (viewer_code sample_view) (str "java"))
          sample_world)
  /\ on_generate_docs failing_completion sample_os_open sample_view (str "java") sample_world
     = (Raise (RemoteCallFailure 429),
        log_request (docs_prompt_text java_profile (viewer_code sample_view) (str "java"))
          sample_world)
  /\ fs (log_request (code_prompt_text java_profile sample_view (str "java")) sample_world)
     = fs sample_world.
Proof.
  destruct (completion_failure_propagates failing_completion sample_os_open sample_view
              (str "java") java_profile sample_world (RemoteCallFailure 429))
    as (Hcode & Htests & Hdocs & Hfs).
  - discriminate.
  - reflexivity.
  - split; [apply Hcode; reflexivity|].
    split; [apply Htests; reflexivity|].
    split; [apply Hdocs; reflexivity|apply Hfs].
Defined.


Lemma write_temp_file_ok os_open text filename w path w' :
  write_temp_file os_open text filename w = (Ok path, w') ->
  exists bytes,
    utf8_encode text = Some bytes
    /\ path = path_join (tempdir w) (safe_name filename (strftime (clock w)))
    /\ w' = set_file path bytes w
    /\ os_open path = None.
Proof.
  destruct (write_temp_file_outcome os_open text filename w)
    as [(bytes & Ho & Hb & ->)|[(_ & _ & ->)|(e & _ & ->)]]; [|done|done].
  intros [= <- <-]. eauto.
Qed.

Section CallbackChain.

Variable chat_completion : pystr -> result (option pystr).
Variable os_open : pystr -> option exn.

(** Generate-tests, when it passes its guard for a language of the table and
    returns: one prompt was sent, built from the code read back out of the
    view; the payload was extracted with the profile's fence tag; the view is
    an opening fence with that tag, a line break, the payload, a line break
    and a closing fence; and the only change to the files is the payload
    written under the profile's test file name. *)
Theorem on_generate_tests_success (view language : pystr) (p : LanguageProfile)
    (w w' : world) (outs : outputs) :
  view <> [] ->
  LANG_PROFILES !! language = Some p ->
  on_generate_tests chat_completion os_open view language w = (Ok outs, w') ->
  exists content raw path bytes,
    chat_completion (tests_prompt_text p (viewer_code view) language) = Ok content
    /\ extract_fenced_block (message_content content) (fence_lang p) = Ok raw
    /\ outs = (OutStr (fence ++ fence_lang p ++ nl ++ raw ++ nl ++ fence),
               OutStr path,
               OutUpdate {| upd_value := Some []; upd_visible := Some false |})
    /\ path = path_join (tempdir w)
                (safe_name (example_test_filename p) (strftime (clock w)))
    /\ utf8_encode raw = Some bytes
    /\ fs w' = <[path := bytes]> (fs w)
    /\ requests w' = requests w ++ [tests_prompt_text p (viewer_code view) language].
Proof.
  intros Hv%nonempty_is_empty Hp Hrun.
  rewrite (on_generate_tests_run _ _ _ _ _ _ Hv Hp) in Hrun. cbv zeta in Hrun.
  destruct (chat_completion _) as [content|e] eqn:Hc; [|done].
  destruct (extract_fenced_block_clean (message_content content) (fence_lang p))
    as (raw & He & Htrim & _).
  rewrite He in Hrun.
  destruct (write_temp_file os_open _ _ _) as [[path|e] w1] eqn:Hw; [|done].
  injection Hrun as <- <-.
  apply write_temp_file_ok in Hw as (bytes & Hb & Hpath & -> & _).
  exists content, raw, path, bytes.
  unfold ready_outputs, wrap_as_markdown_code. rewrite (trimmed_strip _ Htrim).
  by repeat split.
Qed.


End CallbackChain.

Lemma on_generate_tests_success_witness :
  exists content raw path bytes,
    sample_code_completion
      (tests_prompt_text java_profile (viewer_code sample_view) (str "java")) = Ok content
    /\ extract_fenced_block (message_content content) (fence_lang java_profile) = Ok raw
    /\ (OutStr (fence ++ str "java" ++ nl ++ str "class TinyUrl {}" ++ nl ++ fence),
        OutStr (str "/tmp/TinyUrlTest-20250309-070500.java"),
        OutUpdate {| upd_value := Some []; upd_visible := Some false |})
       = (OutStr (fence ++ fence_lang java_profile ++ nl ++ raw ++ nl ++ fence),
          OutStr path,
          OutUpdate {| upd_value := Some []; upd_visible := Some false |})
    /\ path = path_join (tempdir sample_world)
                (safe_name (example_test_filename java_profile)
                   (strftime (clock sample_world)))
    /\ utf8_encode raw = Some bytes
    /\ fs (on_generate_tests sample_code_completion sample_os_open sample_view (str "java")
             sample_world).2
       = <[path := bytes]> (fs sample_world)
    /\ requests
         (on_generate_tests sample_code_completion sample_os_open sample_view (str "java")
            sample_world).2
       = requests sample_world
         ++ [tests_prompt_text java_profile (viewer_code sample_view) (str "java")].
Proof.
  apply (on_generate_tests_success sample_code_completion sample_os_open sample_view (str "java")
           java_profile sample_world).
  - discriminate.
  - reflexivity.
  - vm_compute. reflexivity.
Defined.


(** ** The artifact writer and the other files *)

Lemma safe_name_shape filename :
  exists head tail, forall ts, safe_name filename ts = head ++ 45 :: ts ++ tail.
Proof.
  unfold safe_name. destruct (splitext filename) as [base ext].
  destruct (is_empty ext).
  - by exists filename, (str ".txt").
  - by exists base, ext.
Qed.

Lemma startswith_slash_head head r r' :
  startswith (head ++ 45 :: r) (str "/") = startswith (head ++ 45 :: r') (str "/").
Proof.
  change (str "/") with [47]. destruct head as [|c head]; [done|].
  change ((c :: head) ++ 45 :: r) with (c :: (head ++ 45 :: r)).
  change ((c :: head) ++ 45 :: r') with (c :: (head ++ 45 :: r')).
  by rewrite !startswith_cons_single.
Qed.

Lemma path_join_safe_name_inj tmp filename ts ts' :
  path_join tmp (safe_name filename ts) = path_join tmp (safe_name filename ts') ->
  ts = ts'.
Proof.
  destruct (safe_name_shape filename) as (head & tail & Hs).
  rewrite !Hs. unfold path_join.
  rewrite (startswith_slash_head head (ts ++ tail) (ts' ++ tail)).
  destruct (startswith _ (str "/")); [|destruct (is_empty tmp || endswith tmp (str "/"))].
  - intros H. apply app_inv_head in H. injection H as H. by apply app_inv_tail in H.
  - intros H. apply app_inv_head, app_inv_head in H. injection H as H.
    by apply app_inv_tail in H.
  - intros H. apply app_inv_head, app_inv_head, app_inv_head in H. injection H as H.
    by apply app_inv_tail in H.
Qed.

Lemma write_temp_file_frame os_open text filename other w :
  other <> path_join (tempdir w) (safe_name filename (strftime (clock w))) ->
  fs (write_temp_file os_open text filename w).2 !! other = fs w !! other.
Proof.
  intros Hne. unfold write_temp_file. destruct (os_open _); [done|].
  destruct (utf8_encode text); cbn; by rewrite lookup_insert_ne.
Qed.

(** A write touches one path only.  Whether it returns or raises, every
    other file keeps its content, and the clock, the temporary directory and
    the log of requests are as before. *)
Theorem write_temp_file_touches_one_path (os_open : pystr -> option exn)
    (text filename other : pystr) (w : world) :
  other <> path_join (tempdir w) (safe_name filename (strftime (clock w))) ->
  fs (write_temp_file os_open text filename w).2 !! other = fs w !! other
  /\ clock (write_temp_file os_open text filename w).2 = clock w
  /\ tempdir (write_temp_file os_open text filename w).2 = tempdir w
  /\ requests (write_temp_file os_open text filename w).2 = requests w.
Proof.
  intros Hne. split; [by apply write_temp_file_frame|].
  unfold write_temp_file. destruct (os_open _); [done|].
  by destruct (utf8_encode text).
Qed.

(** Two writes under the same file name while the clock reads the same
    second go to the same path: the second replaces what the first wrote. *)
Theorem write_temp_file_same_second (os_open : pystr -> option exn)
    (text1 text2 filename path : pystr) (bytes2 : list N) (w1 w1' w2 : world) :
  write_temp_file os_open text1 filename w1 = (Ok path, w1') ->
  clock w2 = clock w1 -> tempdir w2 = tempdir w1 ->
  utf8_encode text2 = Some bytes2 ->
  write_temp_file os_open text2 filename w2 = (Ok path, set_file path bytes2 w2)
  /\ fs (set_file path bytes2 w2) !! path = Some bytes2.
Proof.
  intros (bytes1 & _ & -> & _ & Ho)%write_temp_file_ok Hc Ht Hb. split.
  - rewrite <- Hc, <- Ht in Ho |- *. by apply write_temp_file_encodable.
  - apply set_file_lookup.
Qed.

(** Two writes under the same file name at different timestamps go to
    different paths, so the second leaves the file of the first as it was. *)
Theorem write_temp_file_distinct_seconds (os_open : pystr -> option exn)
    (text1 text2 filename path1 : pystr) (w1 w1' w2 : world) :
  write_temp_file os_open text1 filename w1 = (Ok path1, w1') ->
  tempdir w2 = tempdir w1 ->
  strftime (clock w2) <> strftime (clock w1) ->
  fs (write_temp_file os_open text2 filename w2).2 !! path1 = fs w2 !! path1.
Proof.
  intros (bytes1 & _ & -> & _)%write_temp_file_ok Ht Hts.
  apply write_temp_file_frame. rewrite Ht.
  intros H%path_join_safe_name_inj. by destruct Hts.
Qed.

Lemma write_temp_file_touches_one_path_witness :
  fs (write_temp_file sample_os_open (str "x = 2") (str "main.py") sample_later_world).2
    !! str "/tmp/main-20250309-070500.py"
  = fs sample_later_world !! str "/tmp/main-20250309-070500.py"
  /\ clock (write_temp_file sample_os_open (str "x = 2") (str "main.py") sample_later_world).2
     = clock sample_later_world
  /\ tempdir (write_temp_file sample_os_open (str "x = 2") (str "main.py") sample_later_world).2
     = tempdir sample_later_world
  /\ requests (write_temp_file sample_os_open (str "x = 2") (str "main.py") sample_later_world).2
     = requests sample_later_world.
Proof.
  apply (write_temp_file_touches_one_path sample_os_open (str "x = 2") (str "main.py")
           (str "/tmp/main-20250309-070500.py") sample_later_world).
  vm_compute. discriminate.
Defined.

Lemma write_temp_file_same_second_witness :
  write_temp_file sample_os_open (str "x = 2") (str "main.py")
    (set_file (str "/tmp/main-20250309-070500.py") (str "x = 1") sample_world)
  = (Ok (str "/tmp/main-20250309-070500.py"),
     set_file (str "/tmp/main-20250309-070500.py") (str "x = 2")
       (set_file (str "/tmp/main-20250309-070500.py") (str "x = 1") sample_world))
  /\ fs (set_file (str "/tmp/main-20250309-070500.py") (str "x = 2")
           (set_file (str "/tmp/main-20250309-070500.py") (str "x = 1") sample_world))
       !! str "/tmp/main-20250309-070500.py"
     = Some (str "x = 2").
Proof.
  apply (write_temp_file_same_second sample_os_open (str "x = 1") (str "x = 2") (str "main.py")
           (str "/tmp/main-20250309-070500.py") (str "x = 2") sample_world
           (set_file (str "/tmp/main-20250309-070500.py") (str "x = 1") sample_world)).
  - reflexivity.
  - reflexivity.
  - reflexivity.
  - reflexivity.
Defined.

Lemma write_temp_file_distinct_seconds_witness :
  fs (write_temp_file sample_os_open (str "x = 2") (str "main.py") sample_later_world).2
    !! str "/tmp/main-20250309-070500.py"
  = fs sample_later_world !! str "/tmp/main-20250309-070500.py".
Proof.
  apply (write_temp_file_distinct_seconds sample_os_open (str "x = 1") (str "x = 2") (str "main.py")
           (str "/tmp/main-20250309-070500.py") sample_world
           (set_file (str "/tmp/main-20250309-070500.py") (str "x = 1") sample_world)
           sample_later_world).
  - reflexivity.
  - reflexivity.
  - vm_compute. discriminate.
Defined.

(** ** Reading the code back, in general *)

Lemma occurs_at_length sub s i : occurs_at sub s i -> (i + length sub <= length s)%nat.
Proof. intros (a & b & -> & <-). rewrite !length_app. lia. Qed.

Lemma occurs_at_rev sub s i :
  occurs_at sub s i -> occurs_at (rev sub) (rev s) (length s - length sub - i).
Proof.
  intros (a & b & -> & <-). exists (rev b), (rev a). split.
  - by rewrite !rev_app_distr, <- app_assoc.
  - rewrite length_rev, !length_app. lia.
Qed.

Lemma rfind_Some s sub i : rfind s sub = Some i -> last_occurrence sub s i.
Proof.
  unfold rfind. destruct (find (rev s) (rev sub)) as [j|] eqn:F; [|done].
  intros [= <-]. destruct (find_Some _ _ _ F) as [Hocc Hmin].
  pose proof (occurs_at_length _ _ _ Hocc) as Hlen.
  rewrite !length_rev in Hlen. split.
  - apply occurs_at_rev in Hocc. by rewrite !rev_involutive, !length_rev in Hocc.
  - intros k Hk Hoccs. pose proof (occurs_at_length _ _ _ Hoccs) as Hlen'.
    apply occurs_at_rev in Hoccs. apply (Hmin _) in Hoccs; [done|]. lia.
Qed.

Lemma rfind_None s sub : rfind s sub = None -> ~ occurs sub s.
Proof.
  unfold rfind. destruct (find (rev s) (rev sub)) as [j|] eqn:F; [done|].
  intros _ [i Hi]. apply (find_None _ _ F). eexists. by apply occurs_at_rev.
Qed.

Lemma drop_closing_fence_eq code :
  drop_closing_fence code
  = Ok (match rfind code fence with Some i => take i code | None => code end).
Proof.
  unfold drop_closing_fence, rsplit, rfind. unfold fence at 1.
  cbn [rbind split_pieces]. change [96; 96; 96] with fence.
  destruct (find (rev code) (rev fence)) as [j|]; cbn.
  - f_equal. rewrite skipn_rev, rev_involutive. f_equal.
    unfold fence. simpl. lia.
  - by rewrite rev_involutive.
Qed.

(** The code read back out of a view never has whitespace at its ends. *)
Theorem viewer_code_trimmed (view : pystr) : trimmed (viewer_code view).
Proof.
  unfold viewer_code. destruct (startswith (strip view) fence); [|apply strip_trimmed].
  destruct (drop_first_line (strip view)) as [code1|e]; [|apply strip_trimmed].
  rewrite drop_closing_fence_eq. apply strip_trimmed.
Qed.

(** A view of several lines that opens with a fence line.  The opening line
    is dropped whatever follows the marker on it; of the rest, everything
    from the last fence marker on is dropped, so fence markers further up
    stay in the code; without any marker in the rest, all of it is kept.
    What is left is trimmed. *)
Theorem viewer_code_fenced (view first rest : pystr) :
  strip view = fence ++ first ++ nl ++ rest ->
  10 ∉ first ->
  exists code,
    viewer_code view = strip code
    /\ ((exists i, last_occurrence fence rest i /\ code = take i rest)
        \/ (~ occurs fence rest /\ code = rest)).
Proof.
  intros Hview Hfirst. unfold viewer_code. rewrite Hview.
  assert (startswith (fence ++ first ++ nl ++ rest) fence = true) as ->
    by (apply startswith_true; by eexists).
  rewrite (app_assoc fence first), drop_first_line_cut.
  - rewrite drop_closing_fence_eq. eexists. split; [done|].
    destruct (rfind rest fence) as [i|] eqn:R.
    + left. exists i. split; [by apply rfind_Some | done].
    + right. split; [by apply rfind_None | done].
  - apply not_elem_of_app. split; [not_in_literal | done].
Qed.

Lemma viewer_code_fenced_witness :
  exists code,
    viewer_code (str "```md" ++ nl ++ str "a ```b``` c" ++ nl ++ str "```") = strip code
    /\ ((exists i, last_occurrence fence (str "a ```b``` c" ++ nl ++ str "```") i
                   /\ code = take i (str "a ```b``` c" ++ nl ++ str "```"))
        \/ (~ occurs fence (str "a ```b``` c" ++ nl ++ str "```")
            /\ code = str "a ```b``` c" ++ nl ++ str "```")).
Proof.
  apply (viewer_code_fenced (str "```md" ++ nl ++ str "a ```b``` c" ++ nl ++ str "```")
           (str "md") (str "a ```b``` c" ++ nl ++ str "```")).
  - reflexivity.
  - not_in_literal.
Defined.

(** ** [dedent] on a text with a line at the left edge *)

Lemma join_lines_cons_char c l ls : join_lines ((c :: l) :: ls) = c :: join_lines (l :: ls).
Proof. by destruct ls. Qed.

Lemma join_lines_splitlines s : join_lines (splitlines s) = s.
Proof.
  induction s as [|c s IH]; [done|]. simpl.
  pose proof (splitlines_nonempty s) as Hne.
  destruct (c =? 10) eqn:E.
  - apply N.eqb_eq in E as ->. destruct (splitlines s) as [|l ls]; [done|].
    change (join_lines ([] :: l :: ls)) with ([] ++ nl ++ join_lines (l :: ls)).
    by rewrite IH.
  - destruct (splitlines s) as [|l ls]; [done|].
    by rewrite join_lines_cons_char, IH.
Qed.

Lemma join_lines_app xs ys :
  xs <> [] -> ys <> [] -> join_lines (xs ++ ys) = join_lines xs ++ nl ++ join_lines ys.
Proof.
  intros Hx Hy. induction xs as [|x xs IH]; [done|].
  destruct xs as [|x' xs].
  - destruct ys as [|y ys]; done.
  - change (join_lines ((x :: x' :: xs) ++ ys))
      with (x ++ nl ++ join_lines ((x' :: xs) ++ ys)).
    rewrite IH by done.
    change (join_lines (x :: x' :: xs)) with (x ++ nl ++ join_lines (x' :: xs)).
    by rewrite <- !app_assoc.
Qed.

Lemma join_lines_middle_occurs xs ys zs :
  ys <> [] -> occurs (join_lines ys) (join_lines (xs ++ ys ++ zs)).
Proof.
  intros Hy. destruct xs as [|x xs], zs as [|z zs].
  - rewrite app_nil_r. apply (occurs_suffix []).
  - cbn [app]. rewrite (join_lines_app ys (z :: zs)) by done.
    apply (occurs_intro []).
  - rewrite app_nil_r, (join_lines_app (x :: xs) ys) by done.
    rewrite app_assoc. apply occurs_suffix.
  - rewrite (join_lines_app (x :: xs) (ys ++ z :: zs)) by (done || by destruct ys).
    rewrite (join_lines_app ys (z :: zs)) by done.
    rewrite (app_assoc (join_lines (x :: xs))). apply occurs_intro.
Qed.

Lemma dedent_no_margin text l :
  l ∈ List.map blank_line (splitlines text) -> l <> [] -> indent_of l = [] ->
  dedent text = join_lines (List.map blank_line (splitlines text)).
Proof.
  intros Hin Hne Hind. unfold dedent.
  destruct (foldl margin_step None _) as [[|c m]|] eqn:Hm; [done| |done].
  assert ((c :: m) `prefix_of` []) as [k Hk]; [|done].
  eapply margin_prefix; [exact Hm|]. rewrite <- Hind.
  apply list_elem_of_In, in_map, filter_In. split.
  - by apply list_elem_of_In.
  - by destruct l.
Qed.

Lemma map_blank_line_solid text :
  solid_lines text -> List.map blank_line (splitlines text) = splitlines text.
Proof.
  unfold solid_lines. induction (splitlines text) as [|l ls IH]; intros H; [done|].
  simpl. rewrite H, IH; [done| |apply list_elem_of_here].
  intros l' Hl'. apply H. by apply list_elem_of_further.
Qed.

(** A block of whole lines none of which [dedent] blanks, in a text with a
    line at the left edge: the block comes through unchanged. *)
Lemma dedent_keeps_block pre block post l :
  solid_lines block ->
  l ∈ List.map blank_line (splitlines (pre ++ nl ++ block ++ nl ++ post)) ->
  l <> [] -> indent_of l = [] ->
  occurs block (dedent (pre ++ nl ++ block ++ nl ++ post)).
Proof.
  intros Hsolid Hin Hne Hind. rewrite (dedent_no_margin _ l Hin Hne Hind).
  change (nl ++ block ++ nl ++ post) with (10 :: (block ++ 10 :: post)).
  rewrite !splitlines_app, !map_app, (map_blank_line_solid _ Hsolid).
  rewrite <- (join_lines_splitlines block) at 1.
  apply join_lines_middle_occurs, splitlines_nonempty.
Qed.

(** ** The tests and docs prompts *)

Lemma start_pieces (P : pystr -> Prop) text : (forall pre, P (pre ++ text)) -> P text.
Proof. intros H. apply (H []). Qed.

Lemma skip_piece (P : pystr -> Prop) a rest :
  (forall pre, P (pre ++ rest)) -> forall pre, P (pre ++ a ++ rest).
Proof. intros H pre. rewrite app_assoc. apply H. Qed.

Lemma dedent_keeps_piece text pre ind c before piece after post :
  text = pre ++ nl ++ (ind ++ c :: before ++ piece ++ after) ++ nl ++ post ->
  forallb is_indent_char ind = true ->
  is_indent_char c = false ->
  10 ∉ c :: before ++ piece ++ after ->
  occurs piece (dedent text).
Proof.
  intros -> Hind Hc Hnl.
  eapply occurs_trans; [apply (occurs_intro (c :: before) piece after)|].
  by apply dedent_keeps_body.
Qed.

Lemma not_in_line (c : N) before piece after :
  10 <> c -> 10 ∉ before -> 10 ∉ piece -> 10 ∉ after ->
  10 ∉ c :: before ++ piece ++ after.
Proof.
  intros. apply not_elem_of_cons. split; [done|]. by rewrite !not_elem_of_app.
Qed.

Lemma profile_fields_one_line language p :
  LANG_PROFILES !! language = Some p ->
  (10 ∉ test_framework p) /\ (10 ∉ test_hint p) /\ (10 ∉ example_test_filename p)
  /\ (10 ∉ doc_hint p).
Proof.
  intros [[_ ->]|[[_ ->]|[_ ->]]]%supported_cases; repeat split; not_in_literal.
Qed.

(** For every language of the table and whatever the code, the tests prompt
    names the profile's test framework, gives its testing hint and names its
    test file. *)
Theorem tests_prompt_names (code language : pystr) (p : LanguageProfile) :
  LANG_PROFILES !! language = Some p ->
  exists prompt,
    tests_prompt code language = Ok prompt
    /\ occurs (test_framework p) prompt
    /\ occurs (test_hint p) prompt
    /\ occurs (example_test_filename p) prompt.
Proof.
  intros Hp. destruct (profile_fields_one_line _ _ Hp) as (Hfw & Hhint & Hname & _).
  exists (tests_prompt_text p code language). split.
  { unfold tests_prompt, dict_getitem. by rewrite Hp. }
  unfold tests_prompt_text. repeat split.
  - apply (start_pieces (fun t => occurs (test_framework p) (dedent t))).
    do 17 apply (skip_piece (fun t => occurs (test_framework p) (dedent t))).
    intros pre.
    eapply (dedent_keeps_piece _ pre (str "    ") 45 (str " Framework: ") _ (str ".")).
    + repeat (rewrite <- app_assoc || rewrite <- app_comm_cons). reflexivity.
    + reflexivity.
    + reflexivity.
    + apply not_in_line; [done | not_in_literal | done | not_in_literal].
  - apply (start_pieces (fun t => occurs (test_hint p) (dedent t))).
    do 21 apply (skip_piece (fun t => occurs (test_hint p) (dedent t))).
    intros pre.
    eapply (dedent_keeps_piece _ pre (str "    ") 45 (str " ") _ []).
    + rewrite app_nil_r.
      repeat (rewrite <- app_assoc || rewrite <- app_comm_cons). reflexivity.
    + reflexivity.
    + reflexivity.
    + apply not_in_line; [done | not_in_literal | done | apply not_elem_of_nil].
  - apply (start_pieces (fun t => occurs (example_test_filename p) (dedent t))).
    do 26 apply (skip_piece (fun t => occurs (example_test_filename p) (dedent t))).
    intros pre.
    eapply (dedent_keeps_piece _ pre (str "    ") 45
              (str " Provide only ONE test file named like ") _ (str ".")).
    + repeat (rewrite <- app_assoc || rewrite <- app_comm_cons). reflexivity.
    + reflexivity.
    + reflexivity.
    + apply not_in_line; [done | not_in_literal | done | not_in_literal].
Qed.

Lemma tests_prompt_names_witness :
  exists prompt,
    tests_prompt (str "class TinyUrl {}") (str "java") = Ok prompt
    /\ occurs (test_framework java_profile) prompt
    /\ occurs (test_hint java_profile) prompt
    /\ occurs (example_test_filename java_profile) prompt.
Proof.
  apply (tests_prompt_names (str "class TinyUrl {}") (str "java") java_profile).
  reflexivity.
Defined.

Lemma splitlines_prepend a s :
  10 ∉ a -> splitlines (a ++ s) = (a ++ hd [] (splitlines s)) :: tail (splitlines s).
Proof.
  induction a as [|c a IH]; intros Ha.
  - cbn [app]. pose proof (splitlines_nonempty s). by destruct (splitlines s).
  - apply not_elem_of_cons in Ha as [Hc Ha]. simpl. rewrite (IH Ha).
    by destruct (N.eqb_spec c 10) as [->|_].
Qed.

Lemma splitlines_head c r :
  c <> 10 -> exists l ls, splitlines (c :: r) = (c :: l) :: ls.
Proof.
  intros Hc. simpl. destruct (N.eqb_spec c 10) as [->|_]; [done|].
  pose proof (splitlines_nonempty r). destruct (splitlines r) as [|l ls]; [done|].
  eauto.
Qed.

Lemma trimmed_head code :
  code <> [] -> trimmed code -> exists c r, code = c :: r /\ isspace c = false.
Proof.
  intros Hne [Hl _]. destruct code as [|c r]; [done|].
  exists c, r. split; [done|]. by apply lstrip_fixed_head in Hl.
Qed.

Lemma solid_lines_indented ind code :
  forallb is_indent_char ind = true ->
  code <> [] -> trimmed code -> solid_lines code -> solid_lines (ind ++ code).
Proof.
  intros Hind Hne Htrim Hsolid l.
  destruct (trimmed_head _ Hne Htrim) as (c & r & -> & Hc).
  rewrite splitlines_prepend by by apply indent_no_newline.
  destruct (splitlines_head c r) as (l1 & ls & Hsp); [by intros ->|].
  intros [->|Hl]%elem_of_cons.
  - rewrite Hsp. simpl. apply blank_line_body. by apply indent_char_isspace.
  - apply Hsolid. rewrite Hsp in *. by apply list_elem_of_further.
Qed.

Lemma solid_lines_app a b : solid_lines a -> solid_lines b -> solid_lines (a ++ nl ++ b).
Proof.
  intros Ha Hb l. change (nl ++ b) with (10 :: b). rewrite splitlines_app.
  intros [H|H]%elem_of_app; [by apply Ha | by apply Hb].
Qed.

Lemma solid_lines_one_line c r :
  is_indent_char c = false -> 10 ∉ c :: r -> solid_lines (c :: r).
Proof.
  intros Hc Hn l. rewrite (splitlines_one_line _ Hn).
  intros ->%list_elem_of_singleton. apply (blank_line_body [] c r Hc).
Qed.

Lemma line_in_lines text pre line post :
  text = pre ++ nl ++ line ++ nl ++ post ->
  10 ∉ line -> blank_line line = line ->
  line ∈ List.map blank_line (splitlines text).
Proof.
  intros -> Hn Hb. change (nl ++ line ++ nl ++ post) with (10 :: (line ++ 10 :: post)).
  rewrite !splitlines_app, (splitlines_one_line _ Hn), !map_app. cbn [List.map].
  rewrite Hb, !elem_of_app. right. left. by apply list_elem_of_singleton.
Qed.

Lemma block_line_in_lines text pre block post l :
  text = pre ++ nl ++ block ++ nl ++ post ->
  solid_lines block -> l ∈ splitlines block ->
  l ∈ List.map blank_line (splitlines text).
Proof.
  intros -> Hsolid Hl. change (nl ++ block ++ nl ++ post) with (10 :: (block ++ 10 :: post)).
  rewrite !splitlines_app, !map_app, (map_blank_line_solid _ Hsolid), !elem_of_app.
  by right; left.
Qed.

Lemma dedent_keeps_block_eq text pre block post l :
  text = pre ++ nl ++ block ++ nl ++ post ->
  solid_lines block ->
  l ∈ List.map blank_line (splitlines text) ->
  l <> [] -> indent_of l = [] ->
  occurs block (dedent text).
Proof. intros ->. apply dedent_keeps_block. Qed.

Lemma dedent_keeps_body_eq text pre ind c rest post :
  text = pre ++ nl ++ (ind ++ c :: rest) ++ nl ++ post ->
  forallb is_indent_char ind = true ->
  is_indent_char c = false ->
  10 ∉ c :: rest ->
  occurs (c :: rest) (dedent text).
Proof. intros ->. apply dedent_keeps_body. Qed.

(** The tests prompt holds the code as it is, for code without whitespace
    at its ends that is either a single line, or has no line of spaces and
    tabs only and some later line that starts at the left edge. *)
Theorem tests_prompt_embeds_code (code language : pystr) (p : LanguageProfile) :
  LANG_PROFILES !! language = Some p ->
  code <> [] -> trimmed code ->
  10 ∉ code \/ (solid_lines code /\ has_flush_line code) ->
  exists prompt,
    tests_prompt code language = Ok prompt /\ occurs code prompt.
Proof.
  intros Hp Hne Htrim Hcases. exists (tests_prompt_text p code language). split.
  { unfold tests_prompt, dict_getitem. by rewrite Hp. }
  unfold tests_prompt_text.
  apply (start_pieces (fun t => occurs code (dedent t))).
  do 9 apply (skip_piece (fun t => occurs code (dedent t))).
  intros pre. destruct Hcases as [Hone|[Hsolid (l & Hl & Hlne & Hlind)]].
  - destruct (trimmed_head _ Hne Htrim) as (c & r & -> & Hc).
    eapply (dedent_keeps_body_eq _ pre (str "    ") c r).
    + rewrite <- app_assoc. reflexivity.
    + reflexivity.
    + by apply indent_char_isspace.
    + done.
  - assert (solid_lines (str "    " ++ code)) as Hblock
      by by apply solid_lines_indented.
    eapply occurs_trans; [apply (occurs_suffix (str "    ") code)|].
    eapply (dedent_keeps_block_eq _ pre (str "    " ++ code) _ l);
      [rewrite <- app_assoc; reflexivity | done | | done | done].
    eapply (block_line_in_lines _ pre (str "    " ++ code) _ l);
      [rewrite <- app_assoc; reflexivity | done |].
    rewrite splitlines_prepend by not_in_literal. by apply list_elem_of_further.
Qed.

Lemma solid_lines_Forall text :
  Forall (fun l => blank_line l = l) (splitlines text) -> solid_lines text.
Proof. intros H l Hl. by apply (proj1 (Forall_forall _ _) H). Qed.

Lemma tests_prompt_embeds_code_witness :
  exists prompt,
    tests_prompt (str "def f():" ++ nl ++ str "    return 1" ++ nl ++ str "print(f())")
      (str "python") = Ok prompt
    /\ occurs (str "def f():" ++ nl ++ str "    return 1" ++ nl ++ str "print(f())") prompt.
Proof.
  apply (tests_prompt_embeds_code
           (str "def f():" ++ nl ++ str "    return 1" ++ nl ++ str "print(f())")
           (str "python") python_profile).
  - reflexivity.
  - discriminate.
  - split; reflexivity.
  - right. split.
    + apply solid_lines_Forall. vm_compute. repeat constructor.
    + exists (str "print(f())"). split; [|split; [discriminate | reflexivity]].
      apply list_elem_of_In. vm_compute. auto.
Defined.

(** ** The code prompt and the requirements *)

Lemma code_prompt_text_requirements p requirements language :
  10 ∉ strip requirements
  \/ (solid_lines (strip requirements) /\ has_flush_line (strip requirements)) ->
  occurs (strip requirements) (code_prompt_text p requirements language).
Proof.
  pose proof (strip_trimmed requirements) as Htrim.
  unfold code_prompt_text. revert Htrim.
  generalize (strip requirements). intros code Htrim Hcases.
  destruct (decide (code = [])) as [->|Hne]; [apply occurs_nil|].
  apply (start_pieces (fun t => occurs code (dedent t))).
  do 7 apply (skip_piece (fun t => occurs code (dedent t))).
  intros pre. destruct Hcases as [Hone|[Hsolid (l & Hl & Hlne & Hlind)]].
  - destruct (trimmed_head _ Hne Htrim) as (c & r & -> & Hc).
    eapply (dedent_keeps_body_eq _ pre (str "    ") c r).
    + rewrite <- app_assoc. reflexivity.
    + reflexivity.
    + by apply indent_char_isspace.
    + done.
  - assert (solid_lines (str "    " ++ code)) as Hblock
      by by apply solid_lines_indented.
    eapply occurs_trans; [apply (occurs_suffix (str "    ") code)|].
    eapply (dedent_keeps_block_eq _ pre (str "    " ++ code) _ l);
      [rewrite <- app_assoc; reflexivity | done | | done | done].
    eapply (block_line_in_lines _ pre (str "    " ++ code) _ l);
      [rewrite <- app_assoc; reflexivity | done |].
    rewrite splitlines_prepend by not_in_literal. by apply list_elem_of_further.
Qed.

(** For every language of the table and every requirements string, the code
    prompt names the example file of the language's profile; and it holds
    the requirements, with the whitespace at their ends stripped, as they are
    whenever what is left is a single line, or has no line of spaces and tabs
    only and some later line that starts at the left edge. *)
Theorem code_prompt_contains (requirements language : pystr) (p : LanguageProfile) :
  LANG_PROFILES !! language = Some p ->
  exists prompt,
    code_prompt requirements language = Ok prompt
    /\ occurs (example_filename p) prompt
    /\ (10 ∉ strip requirements
        \/ (solid_lines (strip requirements) /\ has_flush_line (strip requirements)) ->
        occurs (strip requirements) prompt).
Proof.
  intros Hp. exists (code_prompt_text p requirements language). split.
  - unfold code_prompt, dict_getitem. by rewrite Hp.
  - split.
    + apply code_prompt_text_filename. by eapply example_filename_one_line.
    + apply code_prompt_text_requirements.
Qed.

Lemma code_prompt_contains_witness :
  exists prompt,
    code_prompt (str " Print the numbers:" ++ nl ++ str "    1, 2, 3" ++ nl ++ str "in order. ")
      (str "java") = Ok prompt
    /\ occurs (example_filename java_profile) prompt
    /\ occurs (str "Print the numbers:" ++ nl ++ str "    1, 2, 3" ++ nl ++ str "in order.")
         prompt.
Proof.
  destruct (code_prompt_contains
              (str " Print the numbers:" ++ nl ++ str "    1, 2, 3" ++ nl ++ str "in order. ")
              (str "java") java_profile) as (prompt & Hrun & Hname & Hreq).
  - reflexivity.
  - exists prompt. split; [exact Hrun|]. split; [exact Hname|].
    apply Hreq. right. split.
    + apply solid_lines_Forall. vm_compute. repeat constructor.
    + exists (str "in order."). split; [|split; [discriminate | reflexivity]].
      apply list_elem_of_In. vm_compute. auto.
Defined.

(** C7 fails in the code for requirements of several lines whose later lines
    are all indented: [code_prompt] puts the requirements into the template
    before [dedent] runs, so the margin these lines share with the template
    is taken from them as well.  For every language of the table, with the
    requirements def f(): followed by a line of six spaces and return 1
    (not empty, no whitespace at either end), the prompt is built and names
    the example file, but it does not contain the requirements: it contains
    them with four of the six spaces gone. *)
Theorem code_prompt_reindents_requirements (language : pystr) (p : LanguageProfile) :
  LANG_PROFILES !! language = Some p ->
  let requirements := str "def f():" ++ nl ++ str "      return 1" in
  requirements <> [] /\ strip requirements = requirements
  /\ exists prompt,
       code_prompt requirements language = Ok prompt
       /\ occurs (example_filename p) prompt
       /\ ~ occurs requirements prompt
       /\ occurs (str "def f():" ++ nl ++ str "  return 1") prompt.
Proof.
  intros Hp requirements. split; [discriminate|]. split; [reflexivity|].
  exists (code_prompt_text p requirements language). split.
  { unfold code_prompt, dict_getitem. by rewrite Hp. }
  split.
  { apply code_prompt_text_filename. by eapply example_filename_one_line. }
  destruct (supported_cases _ _ Hp) as [[-> ->]|[[-> ->]|[-> ->]]].
  all: split; [apply find_None; vm_compute; reflexivity
              | apply py_in_true; vm_compute; reflexivity].
Qed.

Lemma code_prompt_reindents_requirements_witness :
  str "def f():" ++ nl ++ str "      return 1" <> []
  /\ strip (str "def f():" ++ nl ++ str "      return 1")
     = str "def f():" ++ nl ++ str "      return 1"
  /\ exists prompt,
       code_prompt (str "def f():" ++ nl ++ str "      return 1") (str "python") = Ok prompt
       /\ occurs (example_filename python_profile) prompt
       /\ ~ occurs (str "def f():" ++ nl ++ str "      return 1") prompt
       /\ occurs (str "def f():" ++ nl ++ str "  return 1") prompt.
Proof.
  apply (code_prompt_reindents_requirements (str "python") python_profile).
  reflexivity.
Defined.

Lemma run_hint_flush language p :
  LANG_PROFILES !! language = Some p ->
  exists h1 h2,
    run_hint p = h1 ++ nl ++ h2
    /\ (10 ∉ h2) /\ h2 <> [] /\ indent_of h2 = [] /\ blank_line h2 = h2.
Proof.
  intros [[_ ->]|[[_ ->]|[_ ->]]]%supported_cases.
  - exists (str "Run the program with: python main.py"), (str "Run tests with: pytest -q").
    repeat split; (done || not_in_literal).
  - exists (str "If using Maven: mvn -q test"),
      (str "Compile/run manually with javac/java as applicable.").
    repeat split; (done || not_in_literal).
  - exists (str "Run with: node main.js"), (str "Run tests with: npx vitest run").
    repeat split; (done || not_in_literal).
Qed.

(** The docs prompt is never dedented: the run hint of every profile has a
    second line at the left edge, so the template keeps its indentation, and
    the code stands in it between its two fence lines as it is, for every
    code without whitespace at its ends and without a line of spaces and
    tabs only. *)
Theorem docs_prompt_embeds_code (code language : pystr) (p : LanguageProfile) :
  LANG_PROFILES !! language = Some p ->
  code <> [] -> trimmed code -> solid_lines code ->
  exists prompt,
    docs_prompt code language = Ok prompt
    /\ occurs (str "    ```" ++ nl ++ str "    " ++ code ++ nl ++ str "    ```") prompt.
Proof.
  intros Hp Hne Htrim Hsolid. exists (docs_prompt_text p code language). split.
  { unfold docs_prompt, dict_getitem. by rewrite Hp. }
  destruct (run_hint_flush _ _ Hp) as (h1 & h2 & Hrun & Hh2 & Hh2ne & Hh2ind & Hh2b).
  unfold docs_prompt_text. rewrite Hrun.
  match goal with
  | |- occurs _ (dedent ?T) =>
      assert (h2 ∈ List.map blank_line (splitlines T)) as Hin
  end.
  { apply (start_pieces (fun t => h2 ∈ List.map blank_line (splitlines t))).
    do 33 apply (skip_piece (fun t => h2 ∈ List.map blank_line (splitlines t))).
    intros pre. eapply (line_in_lines _ (pre ++ str "    - " ++ h1) h2); [|done|done].
    rewrite <- !app_assoc. reflexivity. }
  revert Hin.
  set (block := str "    ```" ++ nl ++ str "    " ++ code ++ nl ++ str "    ```").
  apply (start_pieces (fun t => h2 ∈ List.map blank_line (splitlines t) ->
                                occurs block (dedent t))).
  do 5 apply (skip_piece (fun t => h2 ∈ List.map blank_line (splitlines t) ->
                                   occurs block (dedent t))).
  intros pre Hin.
  eapply (dedent_keeps_block_eq _ pre block _ h2); [|  |exact Hin|done|done].
  - unfold block. rewrite <- !app_assoc. reflexivity.
  - unfold block. apply solid_lines_app.
    { apply solid_lines_Forall. vm_compute. repeat constructor. }
    rewrite (app_assoc (str "    ") code). apply solid_lines_app.
    { by apply solid_lines_indented. }
    apply solid_lines_Forall. vm_compute. repeat constructor.
Qed.

Lemma docs_prompt_embeds_code_witness :
  exists prompt,
    docs_prompt (str "class TinyUrl {}") (str "java") = Ok prompt
    /\ occurs (str "    ```" ++ nl ++ str "    " ++ str "class TinyUrl {}" ++ nl
               ++ str "    ```") prompt.
Proof.
  apply (docs_prompt_embeds_code (str "class TinyUrl {}") (str "java") java_profile).
  - reflexivity.
  - discriminate.
  - split; reflexivity.
  - apply solid_lines_Forall. vm_compute. repeat constructor.
Defined.

(** ** The first fenced block of a response *)

Lemma find_after_clean_prefix c sub a b :
  c ∉ a -> find (a ++ (c :: sub) ++ b) (c :: sub) = Some (length a).
Proof.
  induction a as [|d a IH]; intros Ha.
  - apply find_startswith, startswith_true. by eexists.
  - apply not_elem_of_cons in Ha as [Hd Ha].
    change ((d :: a) ++ (c :: sub) ++ b) with (d :: (a ++ (c :: sub) ++ b)).
    rewrite find_cons.
    assert (startswith (d :: a ++ (c :: sub) ++ b) (c :: sub) = false) as ->.
    { simpl. by destruct (N.eqb_spec c d). }
    by rewrite (IH Ha).
Qed.

Lemma startswith_fence_line_more body more :
  ~ occurs fence body -> startswith (body ++ 10 :: fence ++ more) fence = false.
Proof.
  intros Hn. destruct (startswith _ fence) eqn:E; [|done].
  apply startswith_true in E as [b Hb]. unfold fence in Hb.
  destruct body as [|c [|d [|e r]]]; simpl in Hb; try discriminate Hb.
  injection Hb as -> -> -> _. destruct Hn. exists 0%nat. by exists [], r.
Qed.

Lemma find_fence_after_line_more body more :
  ~ occurs fence body ->
  find (body ++ 10 :: fence ++ more) fence = Some (S (length body)).
Proof.
  induction body as [|c body IH]; intros Hn.
  - change ([] ++ 10 :: fence ++ more) with (10 :: (fence ++ more)).
    rewrite find_cons.
    assert (startswith (10 :: fence ++ more) fence = false) as -> by reflexivity.
    rewrite find_startswith; [done|]. apply startswith_true. by eexists.
  - change ((c :: body) ++ 10 :: fence ++ more) with (c :: (body ++ 10 :: fence ++ more)).
    rewrite find_cons.
    change (c :: (body ++ 10 :: fence ++ more)) with ((c :: body) ++ 10 :: fence ++ more).
    rewrite (startswith_fence_line_more _ _ Hn), IH; [done|]. by eapply no_fence_tail.
Qed.

Lemma lstrip_app_nonempty s t : lstrip s <> [] -> lstrip (s ++ t) = lstrip s ++ t.
Proof.
  induction s as [|c s IH]; [done|]. simpl. destruct (isspace c); [apply IH | done].
Qed.

Lemma lstrip_app_empty s t : lstrip s = [] -> lstrip (s ++ t) = lstrip t.
Proof.
  induction s as [|c s IH]; [done|]. simpl. destruct (isspace c); [apply IH | done].
Qed.

Lemma strip_trailing_space s c : isspace c = true -> strip (s ++ [c]) = strip s.
Proof.
  intros Hc. unfold strip. destruct (lstrip s) as [|d s'] eqn:E.
  - rewrite lstrip_app_empty by done. simpl. by rewrite Hc.
  - rewrite lstrip_app_nonempty, E by by rewrite E.
    unfold rstrip. by rewrite lstrip_snoc_space.
Qed.

Lemma up_to_fence_closed body more :
  ~ occurs fence body ->
  strip (up_to_fence (body ++ nl ++ fence ++ more)) = strip body.
Proof.
  intros Hn. unfold up_to_fence. change (nl ++ fence ++ more) with (10 :: fence ++ more).
  rewrite (find_fence_after_line_more _ _ Hn).
  change (10 :: fence ++ more) with ([10] ++ fence ++ more).
  rewrite app_assoc, take_app_length' by (rewrite length_app; simpl; lia).
  by apply strip_trailing_space.
Qed.

(** The first fenced block wins, and what stands after its closing fence
    line is ignored.  For a response with no backquote before its first fence
    and no fence marker inside the block: when the block opens with the
    wanted tag, the payload is what follows the tag, trimmed; when the wanted
    tagged fence is nowhere in the response, the payload is everything
    between the fences, trimmed, the other tag on the opening line
    included. *)
Theorem extract_first_block (content tag prose inner more : pystr) :
  content = prose ++ fence ++ inner ++ nl ++ fence ++ more ->
  96 ∉ prose ->
  ~ occurs fence inner ->
  (forall body, inner = tag ++ body ->
                extract_fenced_block content tag = Ok (strip body))
  /\ (~ occurs (fence ++ tag) content ->
      extract_fenced_block content tag = Ok (strip inner)).
Proof.
  intros -> Hprose Hinner. split.
  - intros body ->. rewrite extract_fenced_block_eq.
    replace (prose ++ fence ++ (tag ++ body) ++ nl ++ fence ++ more)
      with (prose ++ (fence ++ tag) ++ body ++ nl ++ fence ++ more)
      by by rewrite <- !app_assoc.
    rewrite (find_after_clean_prefix 96 ([96; 96] ++ tag)) by done.
    rewrite app_assoc, <- length_app, drop_app_length.
    f_equal. apply up_to_fence_closed.
    intros H. apply Hinner. eapply occurs_trans; [exact H | apply occurs_suffix].
  - intros Hn. rewrite extract_fenced_block_eq, (not_occurs_find _ _ Hn).
    rewrite (find_after_clean_prefix 96 [96; 96]) by done.
    change (96 :: [96; 96]) with fence.
    rewrite app_assoc, <- length_app, drop_app_length.
    f_equal. by apply up_to_fence_closed.
Qed.

Lemma extract_first_block_witness :
  (forall body,
      str "js" ++ nl ++ str "let x = 1" = str "javascript" ++ body ->
      extract_fenced_block
        (str "Sure:" ++ nl ++ fence ++ (str "js" ++ nl ++ str "let x = 1") ++ nl ++ fence
         ++ str " Enjoy ```more```")
        (str "javascript") = Ok (strip body))
  /\ (~ occurs (fence ++ str "javascript")
          (str "Sure:" ++ nl ++ fence ++ (str "js" ++ nl ++ str "let x = 1") ++ nl ++ fence
           ++ str " Enjoy ```more```") ->
      extract_fenced_block
        (str "Sure:" ++ nl ++ fence ++ (str "js" ++ nl ++ str "let x = 1") ++ nl ++ fence
         ++ str " Enjoy ```more```")
        (str "javascript") = Ok (strip (str "js" ++ nl ++ str "let x = 1"))).
Proof.
  apply (extract_first_block _ (str "javascript") (str "Sure:" ++ nl)
           (str "js" ++ nl ++ str "let x = 1") (str " Enjoy ```more```")).
  - by rewrite <- !app_assoc.
  - not_in_literal.
  - apply find_None. reflexivity.
Defined.

(** ** The completion helper, the file names of the table, the session *)

Section CompletionHelper.

Variable chat_completion : pystr -> result (option pystr).
Variable os_open : pystr -> option exn.

(** [llm_fenced_block] sends its prompt once and touches no file.  It
    raises exactly when the completion call raises, with that exception;
    otherwise it returns a payload without whitespace at its ends. *)
Theorem llm_fenced_block_outcome (prompt lang_hint : pystr) (w : world) :
  (llm_fenced_block chat_completion prompt lang_hint w).2 = log_request prompt w
  /\ match chat_completion prompt with
     | Raise e => (llm_fenced_block chat_completion prompt lang_hint w).1 = Raise e
     | Ok content =>
         exists payload,
           (llm_fenced_block chat_completion prompt lang_hint w).1 = Ok payload
           /\ extract_fenced_block (message_content content) lang_hint = Ok payload
           /\ trimmed payload
     end.
Proof.
  unfold llm_fenced_block. destruct (chat_completion prompt) as [content|e]; [|done].
  split; [done|].
  destruct (extract_fenced_block_clean (message_content content) lang_hint)
    as (payload & He & Ht & _).
  exists payload. by rewrite He.
Qed.

(** A response whose payload UTF-8 cannot encode: generate-code raises after
    the prompt was sent, and the file it opened is left empty. *)
Theorem unencodable_payload_raises (requirements language : pystr)
    (p : LanguageProfile) (w : world) (content : option pystr) (raw : pystr) :
  requirements <> [] ->
  LANG_PROFILES !! language = Some p ->
  chat_completion (code_prompt_text p requirements language) = Ok content ->
  extract_fenced_block (message_content content) (fence_lang p) = Ok raw ->
  utf8_encode raw = None ->
  os_open (path_join (tempdir w) (safe_name (example_filename p) (strftime (clock w))))
  = None ->
  exists path w',
    on_generate_code chat_completion os_open requirements language w
    = (Raise UnicodeEncodeError, w')
    /\ path = path_join (tempdir w) (safe_name (example_filename p) (strftime (clock w)))
    /\ fs w' !! path = Some []
    /\ requests w' = requests w ++ [code_prompt_text p requirements language].
Proof.
  intros Hr Hp Hc He Hu Ho.
  rewrite (on_generate_code_run _ _ _ _ _ _ Hr Hp). cbv zeta. rewrite Hc, He.
  unfold write_temp_file. cbn [tempdir clock log_request]. rewrite Ho, Hu.
  eexists _, _. split; [reflexivity|]. split; [reflexivity|].
  split; [apply set_file_lookup | reflexivity].
Qed.

End CompletionHelper.

Lemma unencodable_payload_raises_witness :
  exists path w',
    on_generate_code surrogate_completion sample_os_open (str "x") (str "java") sample_world
    = (Raise UnicodeEncodeError, w')
    /\ path = path_join (tempdir sample_world)
                (safe_name (example_filename java_profile) (strftime (clock sample_world)))
    /\ fs w' !! path = Some []
    /\ requests w'
       = requests sample_world ++ [code_prompt_text java_profile (str "x") (str "java")].
Proof.
  apply (unencodable_payload_raises surrogate_completion sample_os_open (str "x") (str "java")
           java_profile sample_world (Some [55296]) [55296]).
  - discriminate.
  - reflexivity.
  - reflexivity.
  - reflexivity.
  - reflexivity.
  - reflexivity.
Defined.

(** For every language of the table the artifacts keep the profile's file
    extension: the code file and the tests file are named
    <base>-<timestamp>.<ext>, the README is README-<timestamp>.md, and the
    .txt fallback of the writer is never taken. *)
Theorem profile_artifact_names (language : pystr) (p : LanguageProfile) (ts : pystr) :
  LANG_PROFILES !! language = Some p ->
  exists base test_base,
    example_filename p = base ++ str "." ++ file_ext p
    /\ safe_name (example_filename p) ts = base ++ str "-" ++ ts ++ str "." ++ file_ext p
    /\ example_test_filename p = test_base ++ str "." ++ file_ext p
    /\ safe_name (example_test_filename p) ts
       = test_base ++ str "-" ++ ts ++ str "." ++ file_ext p
    /\ safe_name (readme_name p) ts = str "README-" ++ ts ++ str ".md".
Proof.
  intros [[_ ->]|[[_ ->]|[_ ->]]]%supported_cases.
  - by exists (str "main"), (str "test_main").
  - by exists (str "TinyUrl"), (str "TinyUrlTest").
  - by exists (str "main"), (str "main.test").
Qed.

Lemma profile_artifact_names_witness :
  exists base test_base,
    example_filename javascript_profile = base ++ str "." ++ file_ext javascript_profile
    /\ safe_name (example_filename javascript_profile) (str "20250309-070500")
       = base ++ str "-" ++ str "20250309-070500" ++ str "." ++ file_ext javascript_profile
    /\ example_test_filename javascript_profile
       = test_base ++ str "." ++ file_ext javascript_profile
    /\ safe_name (example_test_filename javascript_profile) (str "20250309-070500")
       = test_base ++ str "-" ++ str "20250309-070500" ++ str "."
         ++ file_ext javascript_profile
    /\ safe_name (readme_name javascript_profile) (str "20250309-070500")
       = str "README-" ++ str "20250309-070500" ++ str ".md".
Proof.
  apply (profile_artifact_names (str "javascript") javascript_profile
           (str "20250309-070500")).
  reflexivity.
Defined.

(** Generate Code with empty requirements, then Generate Tests or Generate
    Documentation: the first click empties the code view, so the second
    finds no code and answers with the alert that asks to generate code
    first, whatever the session showed before. *)
Theorem empty_requirements_then_tests (chat_completion : pystr -> result (option pystr))
    (os_open : pystr -> option exn) (language : pystr) (s : session) (w : world) :
  exists s1 s2 s3,
    click_gen_code chat_completion os_open [] language s w = (Ok s1, w)
    /\ click_gen_tests chat_completion os_open language s1 w = (Ok s2, w)
    /\ click_gen_docs chat_completion os_open language s1 w = (Ok s3, w)
    /\ value (alert s2) = Some missing_code /\ visible (alert s2) = true
    /\ value (alert s3) = Some missing_code /\ visible (alert s3) = true
    /\ value (tests_view s2) = Some [] /\ value (dl_tests s2) = None
    /\ value (docs_view s3) = Some [] /\ value (dl_docs s3) = None.
Proof. eexists _, _, _. repeat split; reflexivity. Qed.
